(** * android/tools.py: command-line adapters for the Android SDK tools

    A shallow embedding of [src/android/tools.py].  Python objects that
    the module mutates in place (the argument lists, the environment
    dictionaries) live in an explicit store, so that aliasing is visible;
    exceptions are results, and the store survives them as it does in
    Python.  The operating system is a parameter: the platform name and a
    function giving what a launched child process does. *)

From Stdlib Require Import ZArith String Ascii List Bool.
From stdpp Require Import base option list strings gmap fin_maps pretty.
Import ListNotations.
Local Open Scope string_scope.
Local Open Scope Z_scope.
Local Open Scope list_scope.

(** ** Values *)

(** The scalar values that reach the adapters as parameters: [None],
    booleans, integers and (byte) strings. *)
Inductive pyval : Type :=
  | VNone
  | VBool (b : bool)
  | VInt (z : Z)
  | VStr (s : string).

#[global] Instance pyval_eq_dec : EqDecision pyval.
Proof. solve_decision. Defined.

(** Python truth value of a scalar. *)
Definition truthy (v : pyval) : bool :=
  match v with
  | VNone => false
  | VBool b => b
  | VInt z => negb (z =? 0)
  | VStr s => negb (String.eqb s "")
  end.

(** [v is None], which for these scalars is also [v == None]. *)
Definition is_none (v : pyval) : bool :=
  match v with VNone => true | _ => false end.

(** [None in l]. *)
Definition none_in (l : list pyval) : bool := existsb is_none l.

(** ["%s" % v], that is [str(v)]. *)
Definition str_of (v : pyval) : string :=
  match v with
  | VNone => "None"
  | VBool true => "True"
  | VBool false => "False"
  | VInt z => pretty z
  | VStr s => s
  end.

(** The strings of a list all of whose items are strings. *)
Fixpoint as_strs (l : list pyval) : option (list string) :=
  match l with
  | [] => Some []
  | VStr s :: r => cons s <$> as_strs r
  | _ :: _ => None
  end.

(** Bytes read from a pipe (a Python 2 [str]). *)
Definition bytes := string.

(** ** The store *)

Definition loc := nat.

(** A mutable object: a list of scalars or a dictionary from strings to
    strings (the only kind the module handles: environments). *)
Inductive obj : Type :=
  | OList (items : list pyval)
  | ODict (d : gmap string string).

(** What [subprocess.Popen] is asked to run.  Both output streams are
    always pipes in this module. *)
Record LaunchRequest : Type := mkLaunch {
  argv : list string;
  use_shell : bool;
  child_env : gmap string string }.

(** A store: the objects, by address, and the launches asked of [Popen] so
    far, oldest first. *)
Record Store : Type := mkStore {
  heap : list obj;
  launched : list LaunchRequest }.

(** [os.environ] is the object at address 0. *)
Definition os_environ : loc := 0%nat.

(** ** Exceptions and the failure record *)

(** [ProgramFailedError]: holds information about the failure. *)
Record ProgramFailedError : Type := mkProgramFailedError {
  cmdline : string;
  returncode : Z;
  stdout : option bytes;
  stderr : option bytes }.

(** [ProgramFailedError.__init__]: a command line given as a sequence is
    joined with spaces. *)
Definition ProgramFailedError_init (cmdline : string + list string)
    (returncode : Z) (stdout stderr : option bytes) : ProgramFailedError :=
  let cmdline :=
    match cmdline with
    | inr parts => String.concat " " parts
    | inl s => s
    end in
  mkProgramFailedError cmdline returncode stdout stderr.

(** Whether a byte string decodes as ASCII. *)
Definition is_ascii (s : string) : bool :=
  forallb (fun c => Nat.ltb (nat_of_ascii c) 128) (list_ascii_of_string s).

(** [__unicode__]: [u'%s failed with code %s'].  Under Python 2 the byte
    string [cmdline] is decoded as ASCII to fill the unicode format;
    [None] stands for the [UnicodeDecodeError] raised when it holds a
    byte above 127. *)
Definition ProgramFailedError_unicode (e : ProgramFailedError) : option string :=
  if is_ascii (cmdline e)
  then Some (cmdline e +:+ " failed with code " +:+ pretty (returncode e))
  else None.

Inductive exn : Type :=
  | ProgramFailed (e : ProgramFailedError)
  | TypeError
  | AttributeError
  | OSError
  | SystemError.

Inductive outcome (A : Type) : Type :=
  | Return (a : A)
  | Raise (e : exn).
Arguments Return {A} a.
Arguments Raise {A} e.

(** ** The monad of Python computations *)

Definition Py (A : Type) : Type := Store -> outcome A * Store.

Definition ret {A} (a : A) : Py A := fun s => (Return a, s).

Definition raise {A} (e : exn) : Py A := fun s => (Raise e, s).

Definition bind {A B} (m : Py A) (k : A -> Py B) : Py B :=
  fun s =>
    match m s with
    | (Return a, s') => k a s'
    | (Raise e, s') => (Raise e, s')
    end.

Declare Scope py_scope.
Delimit Scope py_scope with py.
Notation "'let*' x := m 'in' k" := (bind m (fun x => k))
  (at level 10, x name, m at level 100, k at level 200) : py_scope.
Notation "m ;;; k" := (bind m (fun _ => k))
  (at level 100, k at level 200, right associativity) : py_scope.
Local Open Scope py_scope.

(** [for x in l: body x]. *)
Fixpoint for_each {A} (l : list A) (body : A -> Py unit) : Py unit :=
  match l with
  | [] => ret tt
  | x :: r => body x ;;; for_each r body
  end.

(** *** Objects *)

Definition get_heap : Py (list obj) := fun s => (Return (heap s), s).

Definition put_heap (h : list obj) : Py unit :=
  fun s => (Return tt, mkStore h (launched s)).

(** Allocation: a new object gets the next address. *)
Definition alloc (o : obj) : Py loc :=
  let* h := get_heap in
  put_heap (h ++ [o]) ;;;
  ret (length h).

(** A reference to something that is not a list (or a dictionary) cannot
    arise in Python; the model answers it with [SystemError]. *)
Definition read_list (a : loc) : Py (list pyval) :=
  let* h := get_heap in
  match h !! a with
  | Some (OList l) => ret l
  | _ => raise SystemError
  end.

Definition write_list (a : loc) (l : list pyval) : Py unit :=
  let* h := get_heap in
  match h !! a with
  | Some (OList _) => put_heap (<[a := OList l]> h)
  | _ => raise SystemError
  end.

Definition read_dict (a : loc) : Py (gmap string string) :=
  let* h := get_heap in
  match h !! a with
  | Some (ODict d) => ret d
  | _ => raise SystemError
  end.

Definition write_dict (a : loc) (d : gmap string string) : Py unit :=
  let* h := get_heap in
  match h !! a with
  | Some (ODict _) => put_heap (<[a := ODict d]> h)
  | _ => raise SystemError
  end.

(** A list display [[x; y; ...]]. *)
Definition new_list (l : list pyval) : Py loc := alloc (OList l).

(** [a.extend(new)]. *)
Definition list_extend (a : loc) (new : list pyval) : Py unit :=
  let* l := read_list a in
  write_list a (l ++ new).

(** [a.insert(i, x)] for [i >= 0]. *)
Definition list_insert (a : loc) (i : nat) (x : pyval) : Py unit :=
  let* l := read_list a in
  write_list a (take i l ++ x :: drop i l).

(** [[x] + arguments]: a new list. *)
Definition list_cons_new (x : pyval) (arguments : loc) : Py loc :=
  let* l := read_list arguments in
  new_list (x :: l).

(** [sep.join(a)]: [TypeError] unless every item is a string. *)
Definition join_strs (sep : string) (l : list pyval) : Py string :=
  match as_strs l with
  | Some ss => ret (String.concat sep ss)
  | None => raise TypeError
  end.

Definition str_join (sep : string) (a : loc) : Py string :=
  let* l := read_list a in
  join_strs sep l.

(** [d.copy()]: a new dictionary with the same items. *)
Definition dict_copy (a : loc) : Py loc :=
  let* d := read_dict a in
  alloc (ODict d).

(** [d.update(other)]: the items of [other] replace those of [d]. *)
Definition dict_update (a : loc) (other : gmap string string) : Py unit :=
  let* d := read_dict a in
  write_dict a (other ∪ d).

(** [env or {}]. *)
Definition or_empty (env : option (gmap string string)) : gmap string string :=
  match env with
  | None => ∅
  | Some d => if decide (d = ∅) then ∅ else d
  end.

(** ** The host *)

(** What becomes of a launch: either the process cannot be started
    ([Popen] raises [OSError]), or it runs to its end, leaving an exit
    code and what it wrote to its two pipes. *)
Inductive ChildOutcome : Type :=
  | LaunchFailed
  | Exited (code : Z) (out err : bytes).

(** The host: [sys.platform], and what a launch does, which may depend on
    the launches before it. *)
Record Host : Type := mkHost {
  sys_platform : string;
  child : list LaunchRequest -> LaunchRequest -> ChildOutcome }.

(** The [Popen] object after [wait()]. *)
Module Popen.
Record t : Type := mk {
  returncode : Z;
  stdout : bytes;
  stderr : bytes }.
End Popen.

(** An object reference used as [self.framework]: [None], or an object
    with string attributes. *)
Inductive framework_ref : Type :=
  | FwNone
  | FwObj (attrs : gmap string string).

(** [o.name]. *)
Definition getattr (o : framework_ref) (name : string) : Py string :=
  match o with
  | FwNone => raise AttributeError
  | FwObj attrs =>
      match attrs !! name with
      | Some v => ret v
      | None => raise AttributeError
      end
  end.

(** [Program.__init__]. *)
Record Program : Type := mkProgram {
  executable : string;
  framework : framework_ref }.

Definition Program_init (executable : string) (framework : framework_ref) : Program :=
  mkProgram executable framework.

(** [Program.extend_args]: extend the argument list [args] with the list
    [new], but only if [new] contains no [None] items, and only if
    [condition] holds.  The default of [condition] is [True]. *)
Definition extend_args (args : loc) (new : list pyval) (condition : pyval) : Py unit :=
  if negb (none_in new) && truthy condition
  then list_extend args new
  else ret tt.

Definition True_ : pyval := VBool true.

Section WithHost.
Context (host : Host).

Definition is_win32 : bool := String.eqb (sys_platform host) "win32".

(** [subprocess.Popen(cmdline, shell=..., env=..., stderr=PIPE,
    stdout=PIPE)] followed by [wait()]: the request is recorded, then
    the host says what becomes of it. *)
Definition popen_wait (cmdline : loc) (shell : bool) (env : loc) : Py Popen.t :=
  let* l := read_list cmdline in
  let* e := read_dict env in
  match as_strs l with
  | None => raise TypeError
  | Some args =>
      let req := mkLaunch args shell e in
      fun s =>
        let s' := mkStore (heap s) (launched s ++ [req]) in
        match child host (launched s) req with
        | LaunchFailed => (Raise OSError, s')
        | Exited code out err => (Return (Popen.mk code out err), s')
        end
  end.

(** [Program.__call__]. *)
Definition Program_call (self : Program) (arguments : loc)
    (env : option (gmap string string)) (shell : pyval) : Py string :=
  let* cmdline := list_cons_new (VStr (executable self)) arguments in
  (if truthy shell && negb is_win32
   then list_insert cmdline 0 (VStr "/bin/sh")
   else ret tt) ;;;
  let* cmdline_str := str_join " " cmdline in
  let* custom_env := dict_copy os_environ in
  dict_update custom_env (or_empty env) ;;;
  let* process := popen_wait cmdline (if is_win32 then true else false) custom_env in
  if negb (Popen.returncode process =? 0)
  then
    raise (ProgramFailed
      (ProgramFailedError_init (inl cmdline_str)
         (Popen.returncode process)
         (Some (Popen.stderr process))
         (Some (Popen.stdout process))))
  else ret cmdline_str.

(** ** The adapters

    Each takes the parameters of its [__call__] in the order of the
    Python signature; a caller that leaves an optional parameter out
    passes its default ([VNone], or [[]] for the list parameters). *)

(** [Aapt.__call__]. *)
Definition Aapt_call (self : Program) (command manifest resource_dir asset_dir : pyval)
    (include : list pyval)
    (apk_output r_output configurations rename_manifest_package
     overwrite_version_code overwrite_version_name make_dirs overwrite : pyval)
    (extra_args : list pyval) : Py string :=
  let* args := new_list [command] in
  extend_args args [VStr "-m"] make_dirs ;;;
  extend_args args [VStr "-M"; manifest] True_ ;;;
  extend_args args [VStr "-S"; resource_dir] True_ ;;;
  extend_args args [VStr "-A"; asset_dir] True_ ;;;
  extend_args args [VStr "-c"; configurations] True_ ;;;
  (if truthy overwrite_version_code
   then extend_args args
          [VStr "--version-code"; VStr (str_of overwrite_version_code)] True_
   else ret tt) ;;;
  extend_args args [VStr "--version-code"; overwrite_version_name] True_ ;;;
  extend_args args [VStr "--rename-manifest-package"; rename_manifest_package] True_ ;;;
  for_each include (fun item =>
    extend_args args [VStr "-I"; item] True_) ;;;
  extend_args args [VStr "-F"; apk_output] True_ ;;;
  extend_args args [VStr "-J"; r_output] True_ ;;;
  extend_args args [VStr "-f"] overwrite ;;;
  extend_args args extra_args True_ ;;;
  Program_call self args None (VBool false).

(** [Aidl.__call__]. *)
Definition Aidl_call (self : Program)
    (aidl_file preprocessed search_path output_folder : pyval) : Py string :=
  let* args := new_list [] in
  extend_args args [VStr ("-p" +:+ str_of preprocessed)] preprocessed ;;;
  extend_args args [VStr ("-I" +:+ str_of search_path)] search_path ;;;
  extend_args args [VStr ("-o" +:+ str_of output_folder)] output_folder ;;;
  extend_args args [aidl_file] True_ ;;;
  Program_call self args None (VBool false).

(** [LlvmRs.__call__]. *)
Definition LlvmRs_call (self : Program) (resource_dir resource_gen_dir : pyval)
    (source_files include_dirs : list pyval) : Py string :=
  let* args := new_list [] in
  for_each include_dirs (fun include =>
    extend_args args [VStr "-I"; include] True_) ;;;
  extend_args args [VStr "-o"; resource_dir] True_ ;;;
  extend_args args [VStr "-java-reflection-path-base"; resource_gen_dir] True_ ;;;
  for_each source_files (fun filename =>
    extend_args args [filename] True_) ;;;
  Program_call self args None (VBool false).

(** [NdkBuild.__call__]. *)
Definition NdkBuild_call (self : Program) (project_path : pyval) : Py string :=
  let* args := new_list [] in
  extend_args args [VStr "-C"; project_path] True_ ;;;
  Program_call self args None (VBool false).

(** [NdkClean.__call__]. *)
Definition NdkClean_call (self : Program) (project_path : pyval) : Py string :=
  let* args := new_list [] in
  extend_args args [VStr "clean"] True_ ;;;
  extend_args args [VStr "-C"; project_path] True_ ;;;
  Program_call self args None (VBool false).

(** [JavaC.__call__].  The classpath is joined before [extend_args] is
    called, whether or not the group is then included. *)
Definition JavaC_call (self : Program) (files : list pyval)
    (destdir encoding target : pyval) (classpath : list pyval)
    (bootclasspath debug : pyval) : Py string :=
  let* args := new_list [] in
  extend_args args [VStr "-encoding"; encoding] True_ ;;;
  extend_args args [VStr "-target"; target] True_ ;;;
  extend_args args [VStr "-source"; target] True_ ;;;
  extend_args args [VStr "-d"; destdir] True_ ;;;
  let* joined := join_strs ":" classpath in
  extend_args args [VStr "-classpath"; VStr joined]
    (VBool (negb (Nat.eqb (length classpath) 0))) ;;;
  extend_args args [VStr "-bootclasspath"; bootclasspath] True_ ;;;
  list_extend args [VStr (if truthy debug then "-g" else "-g:none")] ;;;
  list_extend args files ;;;
  Program_call self args None (VBool false).

(** [Dx.__call__]. *)
Definition Dx_call (self : Program) (files : list pyval) (output : pyval) : Py string :=
  let* args := new_list [VStr "--dex"] in
  extend_args args [VStr ("--output=" +:+ str_of output)] True_ ;;;
  list_extend args files ;;;
  Program_call self args None (VBool false).

(** [ApkBuilder.__call__].  The environment display, and with it
    [self.framework.sdk_dir], is evaluated before [Program.__call__] is
    entered. *)
Definition ApkBuilder_call (self : Program) (outputfile dex : pyval)
    (zips source_dirs jar_paths native_dirs : list pyval) : Py string :=
  let* args := new_list [outputfile] in
  list_extend args [VStr "-u"] ;;;
  extend_args args [VStr "-f"; dex] True_ ;;;
  for_each zips (fun zip =>
    list_extend args [VStr "-z"; zip]) ;;;
  for_each source_dirs (fun source_dir =>
    list_extend args [VStr "-rf"; source_dir]) ;;;
  for_each jar_paths (fun item =>
    list_extend args [VStr "-rj"; item]) ;;;
  for_each native_dirs (fun item =>
    list_extend args [VStr "-nf"; item]) ;;;
  let* sdk_dir := getattr (framework self) "sdk_dir" in
  Program_call self args (Some {[ "ANDROID_SDK_DIR" := sdk_dir ]}) (VBool true).

(** [JarSigner.__call__]. *)
Definition JarSigner_call (self : Program)
    (jarfile keystore alias password : pyval) : Py string :=
  let* args := new_list [] in
  list_extend args [VStr "-keystore"; keystore] ;;;
  list_extend args [VStr "-storepass"; password] ;;;
  list_extend args [VStr "-digestalg"; VStr "SHA1"] ;;;
  list_extend args [VStr "-sigalg"; VStr "MD5withRSA"] ;;;
  list_extend args [jarfile] ;;;
  list_extend args [alias] ;;;
  Program_call self args None (VBool false).

(** [ZipAlign.__call__]. *)
Definition ZipAlign_call (self : Program)
    (infile outfile align force : pyval) : Py string :=
  let* args := new_list [] in
  extend_args args [VStr "-f"] force ;;;
  list_extend args [VStr (str_of align)] ;;;
  list_extend args [infile] ;;;
  list_extend args [outfile] ;;;
  Program_call self args None (VBool false).

End WithHost.

(** ** Summaries used to state the results *)

(** What [extend_args args new condition] appends to [args]. *)
Definition group (new : list pyval) (condition : pyval) : list pyval :=
  if negb (none_in new) && truthy condition then new else [].

(** The items of the list [Program.__call__] hands to [Popen]. *)
Definition launch_items (host : Host) (shell : pyval) (exe : string)
    (items : list pyval) : list pyval :=
  (if truthy shell && negb (is_win32 host) then [VStr "/bin/sh"] else [])
  ++ VStr exe :: items.

(** The strings [Program.__call__] hands to [Popen] when the argument
    fragments are the strings [frags]. *)
Definition launch_argv (host : Host) (shell : pyval) (exe : string)
    (frags : list string) : list string :=
  (if truthy shell && negb (is_win32 host) then ["/bin/sh"] else [])
  ++ exe :: frags.

(** What [Program.__call__] answers once [Popen] has been asked. *)
Definition call_result (cmdline_str : string) (o : ChildOutcome) : outcome string :=
  match o with
  | LaunchFailed => Raise OSError
  | Exited code out err =>
      if code =? 0 then Return cmdline_str
      else Raise (ProgramFailed
                    (mkProgramFailedError cmdline_str code (Some err) (Some out)))
  end.

(** The first object allocated between [s] and [s'], when it is a list:
    for an adapter call, the local [args]. *)
Definition first_new_list (s s' : Store) : option (list pyval) :=
  match heap s' !! length (heap s) with
  | Some (OList l) => Some l
  | _ => None
  end.

(** The store in which an adapter calls [Program.__call__]: the one it
    started in, with its [args] as a new last object. *)
Definition with_args (s : Store) (args : list pyval) : Store :=
  mkStore (heap s ++ [OList args]) (launched s).


(** The values of a list that are not [None], in order. *)
Definition not_None (l : list pyval) : list pyval :=
  filter (fun v => v <> VNone) l.

(** The path separator of the platform, Python's [os.pathsep]: the
    separator the specification names for the classpath.  The module
    itself never consults it. *)
Definition spec_platform_pathsep (host : Host) : string :=
  if is_win32 host then ";" else ":".

(** The argument lists of the adapters, as sums of groups. *)
Definition Aapt_args (command manifest resource_dir asset_dir : pyval)
    (include : list pyval)
    (apk_output r_output configurations rename_manifest_package
     overwrite_version_code overwrite_version_name make_dirs overwrite : pyval)
    (extra_args : list pyval) : list pyval :=
  [command]
  ++ group [VStr "-m"] make_dirs
  ++ group [VStr "-M"; manifest] True_
  ++ group [VStr "-S"; resource_dir] True_
  ++ group [VStr "-A"; asset_dir] True_
  ++ group [VStr "-c"; configurations] True_
  ++ (if truthy overwrite_version_code
      then group [VStr "--version-code"; VStr (str_of overwrite_version_code)] True_
      else [])
  ++ group [VStr "--version-code"; overwrite_version_name] True_
  ++ group [VStr "--rename-manifest-package"; rename_manifest_package] True_
  ++ flat_map (fun item => group [VStr "-I"; item] True_) include
  ++ group [VStr "-F"; apk_output] True_
  ++ group [VStr "-J"; r_output] True_
  ++ group [VStr "-f"] overwrite
  ++ group extra_args True_.

Definition Aidl_args (aidl_file preprocessed search_path output_folder : pyval)
    : list pyval :=
  group [VStr ("-p" +:+ str_of preprocessed)] preprocessed
  ++ group [VStr ("-I" +:+ str_of search_path)] search_path
  ++ group [VStr ("-o" +:+ str_of output_folder)] output_folder
  ++ group [aidl_file] True_.

Definition LlvmRs_args (resource_dir resource_gen_dir : pyval)
    (source_files include_dirs : list pyval) : list pyval :=
  flat_map (fun include => group [VStr "-I"; include] True_) include_dirs
  ++ group [VStr "-o"; resource_dir] True_
  ++ group [VStr "-java-reflection-path-base"; resource_gen_dir] True_
  ++ flat_map (fun filename => group [filename] True_) source_files.

Definition NdkBuild_args (project_path : pyval) : list pyval :=
  group [VStr "-C"; project_path] True_.

Definition NdkClean_args (project_path : pyval) : list pyval :=
  [VStr "clean"] ++ group [VStr "-C"; project_path] True_.

Definition JavaC_head (destdir encoding target : pyval) : list pyval :=
  group [VStr "-encoding"; encoding] True_
  ++ group [VStr "-target"; target] True_
  ++ group [VStr "-source"; target] True_
  ++ group [VStr "-d"; destdir] True_.

Definition JavaC_tail (files : list pyval) (bootclasspath debug : pyval) : list pyval :=
  group [VStr "-bootclasspath"; bootclasspath] True_
  ++ [VStr (if truthy debug then "-g" else "-g:none")]
  ++ files.

Definition JavaC_args (files : list pyval) (destdir encoding target : pyval)
    (classpath : list string) (bootclasspath debug : pyval) : list pyval :=
  JavaC_head destdir encoding target
  ++ match classpath with
     | [] => []
     | _ :: _ => [VStr "-classpath"; VStr (String.concat ":" classpath)]
     end
  ++ JavaC_tail files bootclasspath debug.

Definition Dx_args (files : list pyval) (output : pyval) : list pyval :=
  [VStr "--dex"; VStr ("--output=" +:+ str_of output)] ++ files.

Definition ApkBuilder_args (outputfile dex : pyval)
    (zips source_dirs jar_paths native_dirs : list pyval) : list pyval :=
  [outputfile; VStr "-u"]
  ++ group [VStr "-f"; dex] True_
  ++ flat_map (fun zip => [VStr "-z"; zip]) zips
  ++ flat_map (fun source_dir => [VStr "-rf"; source_dir]) source_dirs
  ++ flat_map (fun item => [VStr "-rj"; item]) jar_paths
  ++ flat_map (fun item => [VStr "-nf"; item]) native_dirs.

Definition JarSigner_args (jarfile keystore alias password : pyval) : list pyval :=
  [VStr "-keystore"; keystore; VStr "-storepass"; password;
   VStr "-digestalg"; VStr "SHA1"; VStr "-sigalg"; VStr "MD5withRSA";
   jarfile; alias].

Definition ZipAlign_args (infile outfile align force : pyval) : list pyval :=
  group [VStr "-f"] force ++ [VStr (str_of align); infile; outfile].

(** ** Sample hosts and stores *)

(** A POSIX host and a Windows host on which every child exits with the
    given code after writing ["ok"] to its standard output and ["boom"] to
    its standard error. *)
Definition posix_host (code : Z) : Host :=
  mkHost "linux2" (fun _ _ => Exited code "ok" "boom").

Definition windows_host (code : Z) : Host :=
  mkHost "win32" (fun _ _ => Exited code "ok" "boom").

(** A POSIX host on which no program can be started. *)
Definition missing_program_host : Host :=
  mkHost "linux2" (fun _ _ => LaunchFailed).

(** A store holding [os.environ] only, and one that also holds an
    argument list at address 1. *)
Definition sample_environ : gmap string string :=
  {[ "PATH" := "/usr/bin"; "HOME" := "/root" ]}.

Definition sample_store : Store := mkStore [ODict sample_environ] [].

Definition sample_store_with (items : list pyval) : Store :=
  mkStore [ODict sample_environ; OList items] [].

(** * Results *)

(** ** Running the primitives *)

Lemma bind_run {A B} (m : Py A) (k : A -> Py B) s :
  bind m k s
  = match m s with
    | (Return a, s') => k a s'
    | (Raise e, s') => (Raise e, s')
    end.
Proof. reflexivity. Qed.

Lemma read_list_run a s :
  read_list a s
  = (match heap s !! a with
     | Some (OList l) => Return l
     | _ => Raise SystemError
     end, s).
Proof. unfold read_list. rewrite bind_run. cbn. by repeat case_match. Qed.

Lemma read_dict_run a s :
  read_dict a s
  = (match heap s !! a with
     | Some (ODict d) => Return d
     | _ => Raise SystemError
     end, s).
Proof. unfold read_dict. rewrite bind_run. cbn. by repeat case_match. Qed.

Lemma write_list_run a l s :
  write_list a l s
  = match heap s !! a with
    | Some (OList _) => (Return tt, mkStore (<[a := OList l]> (heap s)) (launched s))
    | _ => (Raise SystemError, s)
    end.
Proof. unfold write_list. rewrite bind_run. cbn. by repeat case_match. Qed.

Lemma write_dict_run a d s :
  write_dict a d s
  = match heap s !! a with
    | Some (ODict _) => (Return tt, mkStore (<[a := ODict d]> (heap s)) (launched s))
    | _ => (Raise SystemError, s)
    end.
Proof. unfold write_dict. rewrite bind_run. cbn. by repeat case_match. Qed.

Lemma alloc_run o s :
  alloc o s = (Return (length (heap s)), mkStore (heap s ++ [o]) (launched s)).
Proof. reflexivity. Qed.

Lemma list_extend_run a l new s :
  heap s !! a = Some (OList l) ->
  list_extend a new s
  = (Return tt, mkStore (<[a := OList (l ++ new)]> (heap s)) (launched s)).
Proof.
  intros Ha. unfold list_extend. rewrite bind_run, read_list_run, Ha.
  by rewrite write_list_run, Ha.
Qed.

Lemma list_insert_run a l i x s :
  heap s !! a = Some (OList l) ->
  list_insert a i x s
  = (Return tt,
     mkStore (<[a := OList (take i l ++ x :: drop i l)]> (heap s)) (launched s)).
Proof.
  intros Ha. unfold list_insert. rewrite bind_run, read_list_run, Ha.
  by rewrite write_list_run, Ha.
Qed.

Lemma none_in_spec new : none_in new = true <-> VNone ∈ new.
Proof.
  unfold none_in. rewrite existsb_exists. split.
  - intros (x & Hx & Hn). destruct x; try discriminate. by apply list_elem_of_In.
  - intros Hin. exists VNone. split; [by apply list_elem_of_In | done].
Qed.

Lemma extend_args_run a l new c s :
  heap s !! a = Some (OList l) ->
  extend_args a new c s
  = (Return tt, mkStore (<[a := OList (l ++ group new c)]> (heap s)) (launched s)).
Proof.
  intros Ha. unfold extend_args, group.
  destruct (negb (none_in new) && truthy c).
  - by apply list_extend_run.
  - rewrite app_nil_r, list_insert_id by done. by destruct s.
Qed.

Lemma as_strs_map_VStr ss : as_strs (map VStr ss) = Some ss.
Proof. induction ss as [|x r IH]; [done|]. cbn. by rewrite IH. Qed.

Lemma as_strs_Some l ss : as_strs l = Some ss -> l = map VStr ss.
Proof.
  revert ss. induction l as [|x r IH]; intros ss; cbn.
  - by intros [= <-].
  - destruct x; try discriminate.
    destruct (as_strs r) as [ss'|]; [|discriminate].
    intros [= <-]. cbn. by rewrite (IH ss').
Qed.

(** ** The last object of the store *)

Lemma lookup_snoc_last {A} (h : list A) (x : A) : (h ++ [x]) !! length h = Some x.
Proof. rewrite lookup_app_r by lia. by rewrite Nat.sub_diag. Qed.

Lemma insert_snoc_last {A} (h : list A) (x y : A) :
  <[length h := y]> (h ++ [x]) = h ++ [y].
Proof. rewrite insert_app_r_alt by lia. by rewrite Nat.sub_diag. Qed.

Lemma lookup_snoc_old {A} (h : list A) (x : A) i o :
  h !! i = Some o -> (h ++ [x]) !! i = Some o.
Proof. intros Hi. by rewrite lookup_app_l by (by eapply lookup_lt_Some). Qed.

(** ** [Program.__call__], unfolded *)

Lemma Program_call_unfold host self a env shell s :
  Program_call host self a env shell s
  = match heap s !! a with
    | Some (OList items) =>
        let cl := launch_items host shell (executable self) items in
        let h1 := heap s ++ [OList cl] in
        match as_strs cl with
        | None => (Raise TypeError, mkStore h1 (launched s))
        | Some ss =>
            match heap s !! os_environ with
            | Some (ODict E) =>
                let ce := or_empty env ∪ E in
                let req := mkLaunch ss (is_win32 host) ce in
                (call_result (String.concat " " ss) (child host (launched s) req),
                 mkStore (h1 ++ [ODict ce]) (launched s ++ [req]))
            | _ => (Raise SystemError, mkStore h1 (launched s))
            end
        end
    | _ => (Raise SystemError, s)
    end.
Proof.
  destruct s as [h L]. unfold Program_call, list_cons_new.
  rewrite !bind_run, read_list_run. cbn [heap launched].
  destruct (h !! a) as [[items|d]|] eqn:Ha; try reflexivity.
  unfold new_list. rewrite alloc_run. cbn [heap launched].
  set (cl := launch_items _ _ _ _).
  assert (Hins :
    (if truthy shell && negb (is_win32 host)
     then list_insert (length h) 0 (VStr "/bin/sh") else ret tt)
      (mkStore (h ++ [OList (VStr (executable self) :: items)]) L)
    = (Return tt, mkStore (h ++ [OList cl]) L)).
  { subst cl. unfold launch_items. destruct (truthy shell && negb (is_win32 host)).
    - rewrite (list_insert_run _ (VStr (executable self) :: items))
        by apply lookup_snoc_last.
      cbn [heap launched take drop app]. by rewrite insert_snoc_last.
    - reflexivity. }
  rewrite bind_run, Hins. clear Hins. cbv zeta.
  unfold str_join. rewrite !bind_run, read_list_run. cbn [heap launched].
  rewrite lookup_snoc_last. unfold join_strs.
  destruct (as_strs cl) as [ss|] eqn:Hss; [|reflexivity].
  unfold ret at 1. unfold dict_copy. rewrite !bind_run, read_dict_run.
  cbn [heap launched].
  destruct (h !! os_environ) as [[l0|E]|] eqn:HE.
  - by rewrite (lookup_snoc_old _ _ _ _ HE).
  - rewrite (lookup_snoc_old _ _ _ _ HE). rewrite alloc_run. cbn [heap launched].
    unfold dict_update. rewrite !bind_run, read_dict_run. cbn [heap launched].
    rewrite lookup_snoc_last. rewrite write_dict_run. cbn [heap launched].
    rewrite lookup_snoc_last, insert_snoc_last.
    unfold popen_wait. rewrite !bind_run, read_list_run. cbn [heap launched].
    rewrite (lookup_snoc_old _ _ _ _ (lookup_snoc_last h (OList cl))).
    rewrite bind_run, read_dict_run. cbn [heap launched].
    rewrite lookup_snoc_last, Hss.
    replace (if is_win32 host then true else false) with (is_win32 host)
      by by destruct (is_win32 host).
    cbn [heap launched].
    destruct (child host L _) as [|code out err]; [reflexivity|].
    cbn. by destruct (code =? 0).
  - destruct h; [by destruct a | done].
Qed.

(** [Program.__call__] changes no object that existed before it. *)
Lemma Program_call_frame host self a env shell s i o :
  heap s !! i = Some o ->
  heap (Program_call host self a env shell s).2 !! i = Some o.
Proof.
  intros Hi. rewrite Program_call_unfold.
  destruct (heap s !! a) as [[items|d]|]; try done. cbv zeta.
  destruct (as_strs _); [|by apply lookup_snoc_old].
  destruct (heap s !! os_environ) as [[l0|E]|]; cbn [snd heap];
    repeat apply lookup_snoc_old; done.
Qed.

(** It raises [ProgramFailedError], [TypeError], [OSError] or, on a
    dangling reference, [SystemError]: never [AttributeError]. *)
Lemma Program_call_not_AttributeError host self a env shell s :
  (Program_call host self a env shell s).1 <> Raise AttributeError.
Proof.
  rewrite Program_call_unfold. unfold call_result.
  destruct (heap s !! a) as [[items|d]|]; try done. cbv zeta.
  destruct (as_strs _); [|done].
  destruct (heap s !! os_environ) as [[l0|E]|]; try done. cbn [fst].
  destruct (child _ _ _) as [|code out err]; [done|]. by destruct (code =? 0).
Qed.

(** A request is recorded exactly when the call gets as far as [Popen]. *)
Lemma Program_call_launch host self a env shell s req :
  launched (Program_call host self a env shell s).2 = launched s ++ [req] ->
  exists items E,
    heap s !! a = Some (OList items)
    /\ heap s !! os_environ = Some (ODict E)
    /\ launch_items host shell (executable self) items = map VStr (argv req)
    /\ use_shell req = is_win32 host
    /\ child_env req = or_empty env ∪ E
    /\ (Program_call host self a env shell s).1
       = call_result (String.concat " " (argv req)) (child host (launched s) req).
Proof.
  rewrite Program_call_unfold. intros Hl.
  assert (Hno : launched s <> launched s ++ [req]).
  { intros Heq. apply (f_equal length) in Heq. rewrite length_app in Heq. cbn in Heq. lia. }
  destruct (heap s !! a) as [[items|d]|] eqn:Ha; try done.
  cbv zeta in *.
  destruct (as_strs _) as [ss|] eqn:Hss; [|done].
  destruct (heap s !! os_environ) as [[l0|E]|] eqn:HE; try done.
  cbn [snd fst launched] in *.
  apply app_inj_tail in Hl as [_ <-]. cbn [argv use_shell child_env].
  exists items, E. repeat split; try done. by apply as_strs_Some.
Qed.

Lemma launch_items_strs host shell exe frags :
  launch_items host shell exe (map VStr frags)
  = map VStr (launch_argv host shell exe frags).
Proof.
  unfold launch_items, launch_argv.
  by destruct (truthy shell && negb (is_win32 host)).
Qed.

Lemma map_VStr_inj l1 l2 : map VStr l1 = map VStr l2 -> l1 = l2.
Proof.
  intros Heq. apply (f_equal as_strs) in Heq.
  rewrite !as_strs_map_VStr in Heq. by injection Heq.
Qed.

Lemma Program_call_launch_strs host self a env shell s req frags :
  launched (Program_call host self a env shell s).2 = launched s ++ [req] ->
  heap s !! a = Some (OList (map VStr frags)) ->
  argv req = launch_argv host shell (executable self) frags.
Proof.
  intros Hl Ha.
  destruct (Program_call_launch _ _ _ _ _ _ _ Hl) as (items & E & Ha' & _ & Hit & _).
  rewrite Ha in Ha'. injection Ha' as <-.
  rewrite launch_items_strs in Hit. symmetry. by apply map_VStr_inj.
Qed.

(** When the fragments are strings and [os.environ] is in place, the call
    gets as far as [Popen]. *)
Lemma Program_call_reaches_Popen host self a env shell s frags E :
  heap s !! a = Some (OList (map VStr frags)) ->
  heap s !! os_environ = Some (ODict E) ->
  launched (Program_call host self a env shell s).2
  = launched s ++ [mkLaunch (launch_argv host shell (executable self) frags)
                     (is_win32 host) (or_empty env ∪ E)].
Proof.
  intros Ha HE. rewrite Program_call_unfold, Ha. cbv zeta.
  by rewrite launch_items_strs, as_strs_map_VStr, HE.
Qed.

(** ** The invoker *)

(** C1: [Program.__call__] raises [ProgramFailedError] exactly when the
    child it launched exits with a nonzero code; the error then carries
    the joined command line and that code; when the child exits with
    code 0 the call returns the joined command line, and neither the
    answer nor the store depends on what the child wrote to its pipes.
    The command line is that of the request made: the executable and the
    items of the argument list, after ["/bin/sh"] in the shell-wrapper
    mode off Windows; and with string fragments and [os.environ] in place
    the request is made. *)
Theorem Program_call_fails_iff_exit_nonzero host self a env shell s :
  ((exists e, (Program_call host self a env shell s).1 = Raise (ProgramFailed e))
   <-> (exists req code out err,
          launched (Program_call host self a env shell s).2 = launched s ++ [req]
          /\ child host (launched s) req = Exited code out err
          /\ code <> 0))
  /\ (forall e,
        (Program_call host self a env shell s).1 = Raise (ProgramFailed e) ->
        exists req out err,
          launched (Program_call host self a env shell s).2 = launched s ++ [req]
          /\ child host (launched s) req = Exited (returncode e) out err
          /\ cmdline e = String.concat " " (argv req)
          /\ returncode e <> 0
          /\ exists items,
               heap s !! a = Some (OList items)
               /\ map VStr (argv req)
                  = (if truthy shell && negb (is_win32 host)
                     then [VStr "/bin/sh"] else [])
                    ++ VStr (executable self) :: items)
  /\ (forall req out err,
        launched (Program_call host self a env shell s).2 = launched s ++ [req] ->
        child host (launched s) req = Exited 0 out err ->
        (Program_call host self a env shell s).1
        = Return (String.concat " " (argv req))
        /\ (forall host' out' err',
              sys_platform host' = sys_platform host ->
              child host' (launched s) req = Exited 0 out' err' ->
              Program_call host' self a env shell s
              = Program_call host self a env shell s)
        /\ exists items,
             heap s !! a = Some (OList items)
             /\ map VStr (argv req)
                = (if truthy shell && negb (is_win32 host)
                   then [VStr "/bin/sh"] else [])
                  ++ VStr (executable self) :: items)
  /\ (forall frags E,
        heap s !! a = Some (OList (map VStr frags)) ->
        heap s !! os_environ = Some (ODict E) ->
        exists req,
          launched (Program_call host self a env shell s).2 = launched s ++ [req]
          /\ argv req
             = (if truthy shell && negb (is_win32 host) then ["/bin/sh"] else [])
               ++ executable self :: frags
          /\ forall code out err,
               child host (launched s) req = Exited code out err ->
               (code = 0 ->
                (Program_call host self a env shell s).1
                = Return (String.concat " " (argv req)))
               /\ (code <> 0 ->
                   exists e,
                     (Program_call host self a env shell s).1
                     = Raise (ProgramFailed e)
                     /\ cmdline e = String.concat " " (argv req)
                     /\ returncode e = code)).
Proof.
  assert (Hitems : forall req,
    launched (Program_call host self a env shell s).2 = launched s ++ [req] ->
    exists items,
      heap s !! a = Some (OList items)
      /\ map VStr (argv req)
         = (if truthy shell && negb (is_win32 host) then [VStr "/bin/sh"] else [])
           ++ VStr (executable self) :: items).
  { intros req Hl.
    destruct (Program_call_launch _ _ _ _ _ _ _ Hl) as (items & _ & Ha & _ & Hit & _).
    exists items. split; [exact Ha|]. symmetry. exact Hit. }
  assert (Hraised : forall e,
    (Program_call host self a env shell s).1 = Raise (ProgramFailed e) ->
    exists req out err,
      launched (Program_call host self a env shell s).2 = launched s ++ [req]
      /\ child host (launched s) req = Exited (returncode e) out err
      /\ cmdline e = String.concat " " (argv req)
      /\ returncode e <> 0).
  { intros e. rewrite Program_call_unfold.
    destruct (heap s !! a) as [[items|d]|]; try done. cbv zeta.
    destruct (as_strs _) as [ss|]; [|done].
    destruct (heap s !! os_environ) as [[l0|E]|]; try done. cbn [fst snd launched].
    set (req := mkLaunch _ _ _).
    destruct (child host (launched s) req) as [|code out err] eqn:Hc; [done|].
    cbn [call_result]. destruct (code =? 0) eqn:Hz; [done|].
    intros [= <-]. exists req, out, err. cbn [returncode cmdline].
    repeat split; try done. by apply Z.eqb_neq. }
  split; [split|split; [|split]].
  - intros [e He]. destruct (Hraised e He) as (req & out & err & Hl & Hc & _ & Hnz).
    by exists req, (returncode e), out, err.
  - intros (req & code & out & err & Hl & Hc & Hnz).
    destruct (Program_call_launch _ _ _ _ _ _ _ Hl) as (_ & _ & _ & _ & _ & _ & _ & ->).
    rewrite Hc. cbn [call_result]. apply Z.eqb_neq in Hnz. rewrite Hnz. eauto.
  - intros e He. destruct (Hraised e He) as (req & out & err & Hl & Hc & Hcl & Hnz).
    exists req, out, err. repeat split; try done. by apply Hitems.
  - intros req out err Hl Hc.
    destruct (Program_call_launch _ _ _ _ _ _ _ Hl)
      as (items & E & Ha & HE & Hit & Hsh & Hce & Hres).
    split; [by rewrite Hres, Hc|]. split; [|by apply Hitems].
    intros host' out' err' Hp Hc'.
    assert (Hw : is_win32 host' = is_win32 host) by (unfold is_win32; by rewrite Hp).
    rewrite !Program_call_unfold, Ha, HE. cbv zeta.
    unfold launch_items in *. rewrite Hw, Hit, as_strs_map_VStr.
    assert (Hreq : mkLaunch (argv req) (is_win32 host) (or_empty env ∪ E) = req).
    { destruct req. cbn in *. by subst. }
    by rewrite Hreq, Hc, Hc'.
  - intros frags E Ha HE.
    pose proof (Program_call_reaches_Popen host self a env shell s frags E Ha HE)
      as Hl.
    eexists. split; [exact Hl|]. split; [reflexivity|].
    intros code out err Hc.
    destruct (Program_call_launch _ _ _ _ _ _ _ Hl) as (_ & _ & _ & _ & _ & _ & _ & ->).
    rewrite Hc. cbn [call_result]. split.
    + intros ->. reflexivity.
    + intros Hnz. apply Z.eqb_neq in Hnz. rewrite Hnz. eauto.
Qed.

(** C2: when the child exits with a nonzero code, the error's field named
    [stdout] holds what the child wrote to its standard error, and the
    field named [stderr] what it wrote to its standard output. *)
Theorem Program_call_failure_streams_swapped host self a env shell s req code out err :
  launched (Program_call host self a env shell s).2 = launched s ++ [req] ->
  child host (launched s) req = Exited code out err ->
  code <> 0 ->
  exists e,
    (Program_call host self a env shell s).1 = Raise (ProgramFailed e)
    /\ stdout e = Some err
    /\ stderr e = Some out.
Proof.
  intros Hl Hc Hnz.
  destruct (Program_call_launch _ _ _ _ _ _ _ Hl) as (_ & _ & _ & _ & _ & _ & _ & ->).
  rewrite Hc. cbn [call_result]. apply Z.eqb_neq in Hnz. rewrite Hnz. eauto.
Qed.

(** C5, as amended: when the child exits with code 0, the string returned
    is the launched argv joined by single spaces: the executable followed
    by the fragments, preceded by ["/bin/sh"] when the shell wrapper is
    asked for off Windows. *)
Theorem Program_call_returns_launched_cmdline host self a env shell s frags req out err :
  heap s !! a = Some (OList (map VStr frags)) ->
  launched (Program_call host self a env shell s).2 = launched s ++ [req] ->
  child host (launched s) req = Exited 0 out err ->
  (Program_call host self a env shell s).1
  = Return (String.concat " "
      ((if truthy shell && negb (is_win32 host) then ["/bin/sh"] else [])
       ++ executable self :: frags)).
Proof.
  intros Ha Hl Hc.
  pose proof (Program_call_launch_strs _ _ _ _ _ _ _ _ Hl Ha) as Hargv.
  destruct (Program_call_launch _ _ _ _ _ _ _ Hl) as (_ & _ & _ & _ & _ & _ & _ & ->).
  by rewrite Hc, Hargv.
Qed.

(** C6: with a true [shell] off Windows the launched argv is ["/bin/sh"]
    followed by the executable and the fragments, and [Popen] is not asked
    for a shell; on Windows [Popen] is asked for a shell whatever [shell]
    is, and the argv is the executable and the fragments. *)
Theorem Program_call_shell_wrapper host self a env shell s frags E :
  heap s !! a = Some (OList (map VStr frags)) ->
  heap s !! os_environ = Some (ODict E) ->
  exists req,
    launched (Program_call host self a env shell s).2 = launched s ++ [req]
    /\ (is_win32 host = false -> truthy shell = true ->
        argv req = "/bin/sh" :: executable self :: frags
        /\ use_shell req = false)
    /\ (is_win32 host = false -> truthy shell = false ->
        argv req = executable self :: frags
        /\ use_shell req = false)
    /\ (is_win32 host = true ->
        argv req = executable self :: frags
        /\ use_shell req = true).
Proof.
  intros Ha HE. eexists. split; [by eapply Program_call_reaches_Popen|].
  cbn [argv use_shell]. unfold launch_argv.
  split; [|split].
  - intros Hw Hs. by rewrite Hw, Hs.
  - intros Hw Hs. by rewrite Hw, Hs.
  - intros Hw. by rewrite Hw, andb_false_r.
Qed.

(** C7: the environment given to the child is [os.environ] with the
    overlay on top, the overlay winning; the call changes no object that
    existed before it, [os.environ] included. *)
Theorem Program_call_environment host self a env shell s items E :
  heap s !! a = Some (OList items) ->
  heap s !! os_environ = Some (ODict E) ->
  heap (Program_call host self a env shell s).2 !! os_environ = Some (ODict E)
  /\ (forall i o,
        heap s !! i = Some o ->
        heap (Program_call host self a env shell s).2 !! i = Some o)
  /\ (forall req,
        launched (Program_call host self a env shell s).2 = launched s ++ [req] ->
        forall k,
          child_env req !! k
          = match default ∅ env !! k with
            | Some v => Some v
            | None => E !! k
            end)
  /\ (forall frags,
        items = map VStr frags ->
        exists req,
          launched (Program_call host self a env shell s).2 = launched s ++ [req]).
Proof.
  intros Ha HE. split; [by apply Program_call_frame|].
  split; [intros i o; by apply Program_call_frame|]. split.
  - intros req Hl k.
    destruct (Program_call_launch _ _ _ _ _ _ _ Hl) as (_ & E' & _ & HE' & _ & _ & -> & _).
    rewrite HE in HE'. injection HE' as <-.
    assert (Hov : or_empty env = default ∅ env).
    { destruct env as [d|]; cbn; [|done]. by case_decide. }
    rewrite Hov. destruct (default ∅ env !! k) as [v|] eqn:Hk.
    + by apply lookup_union_Some_l.
    + by rewrite lookup_union_r.
  - intros frags ->. eexists. by eapply Program_call_reaches_Popen.
Qed.

(** ** The conditional argument builder *)

(** C3: [extend_args] never raises; it appends the whole of [new] to the
    list at [args] when [new] holds no [None] and the condition is true,
    and otherwise changes nothing; the list at [args] is the only thing it
    ever changes. *)
Theorem extend_args_all_or_nothing args l new condition s :
  heap s !! args = Some (OList l) ->
  ((VNone ∉ new) /\ truthy condition = true ->
   extend_args args new condition s
   = (Return tt, mkStore (<[args := OList (l ++ new)]> (heap s)) (launched s)))
  /\ ((VNone ∈ new) \/ truthy condition = false ->
      extend_args args new condition s = (Return tt, s))
  /\ (exists s', extend_args args new condition s = (Return tt, s')).
Proof.
  intros Ha. rewrite (extend_args_run _ l) by done. unfold group.
  split; [|split].
  - intros [Hn Hc]. rewrite Hc.
    destruct (none_in new) eqn:Hin; [by apply none_in_spec in Hin|done].
  - intros Hskip.
    assert (Hb : negb (none_in new) && truthy condition = false).
    { destruct Hskip as [Hin| ->]; [|by rewrite andb_false_r].
      apply none_in_spec in Hin. by rewrite Hin. }
    rewrite Hb, app_nil_r, list_insert_id by done. by destruct s.
  - eauto.
Qed.

(** ** Building the argument list *)

Section BuildingArgs.
Context {B : Type} (h : list obj) (L : list LaunchRequest).
Implicit Types (l new : list pyval) (k : unit -> Py B).

Lemma bind_new_list l (k : loc -> Py B) :
  bind (new_list l) k (mkStore h L) = k (length h) (mkStore (h ++ [OList l]) L).
Proof. reflexivity. Qed.

Lemma list_extend_last l new :
  list_extend (length h) new (mkStore (h ++ [OList l]) L)
  = (Return tt, mkStore (h ++ [OList (l ++ new)]) L).
Proof.
  rewrite (list_extend_run _ l) by apply lookup_snoc_last.
  cbn [heap launched]. by rewrite insert_snoc_last.
Qed.

Lemma extend_args_last l new c :
  extend_args (length h) new c (mkStore (h ++ [OList l]) L)
  = (Return tt, mkStore (h ++ [OList (l ++ group new c)]) L).
Proof.
  rewrite (extend_args_run _ l) by apply lookup_snoc_last.
  cbn [heap launched]. by rewrite insert_snoc_last.
Qed.

Lemma for_each_last {A} (items : list A) (body : A -> Py unit)
    (f : A -> list pyval) l :
  (forall x l', body x (mkStore (h ++ [OList l']) L)
                = (Return tt, mkStore (h ++ [OList (l' ++ f x)]) L)) ->
  for_each items body (mkStore (h ++ [OList l]) L)
  = (Return tt, mkStore (h ++ [OList (l ++ flat_map f items)]) L).
Proof.
  intros Hbody. revert l.
  induction items as [|x r IH]; intros l; cbn [for_each flat_map].
  - by rewrite app_nil_r.
  - by rewrite bind_run, Hbody, IH, app_assoc.
Qed.

Lemma bind_list_extend_last l new k :
  bind (list_extend (length h) new) k (mkStore (h ++ [OList l]) L)
  = k tt (mkStore (h ++ [OList (l ++ new)]) L).
Proof. by rewrite bind_run, list_extend_last. Qed.

Lemma bind_extend_args_last l new c k :
  bind (extend_args (length h) new c) k (mkStore (h ++ [OList l]) L)
  = k tt (mkStore (h ++ [OList (l ++ group new c)]) L).
Proof. by rewrite bind_run, extend_args_last. Qed.

Lemma bind_if_extend_args_last (b : bool) l new c k :
  bind (if b then extend_args (length h) new c else ret tt) k
    (mkStore (h ++ [OList l]) L)
  = k tt (mkStore (h ++ [OList (l ++ if b then group new c else [])]) L).
Proof.
  destruct b; [apply bind_extend_args_last|]. by rewrite app_nil_r.
Qed.

Lemma bind_for_each_extend_args_last (items : list pyval)
    (f : pyval -> list pyval) c l k :
  bind (for_each items (fun x => extend_args (length h) (f x) c)) k
    (mkStore (h ++ [OList l]) L)
  = k tt (mkStore (h ++ [OList (l ++ flat_map (fun x => group (f x) c) items)]) L).
Proof.
  rewrite bind_run, (for_each_last _ _ (fun x => group (f x) c)); [done|].
  intros x l'. apply extend_args_last.
Qed.

Lemma bind_for_each_list_extend_last (items : list pyval)
    (f : pyval -> list pyval) l k :
  bind (for_each items (fun x => list_extend (length h) (f x))) k
    (mkStore (h ++ [OList l]) L)
  = k tt (mkStore (h ++ [OList (l ++ flat_map f items)]) L).
Proof.
  rewrite bind_run, (for_each_last _ _ f); [done|].
  intros x l'. apply list_extend_last.
Qed.
End BuildingArgs.

(** Runs an adapter up to its call of [Program.__call__]. *)
Ltac build_args :=
  repeat first
    [ rewrite bind_new_list
    | rewrite bind_extend_args_last
    | rewrite bind_if_extend_args_last
    | rewrite bind_list_extend_last
    | rewrite bind_for_each_extend_args_last
    | rewrite bind_for_each_list_extend_last ];
  cbv beta; rewrite <- ?app_assoc; cbn [app].

Section AdapterRuns.
Context (host : Host) (self : Program) (s : Store).

Lemma Aapt_call_run command manifest resource_dir asset_dir include
    apk_output r_output configurations rename_manifest_package
    overwrite_version_code overwrite_version_name make_dirs overwrite extra_args :
  Aapt_call host self command manifest resource_dir asset_dir include
    apk_output r_output configurations rename_manifest_package
    overwrite_version_code overwrite_version_name make_dirs overwrite extra_args s
  = Program_call host self (length (heap s)) None (VBool false)
      (with_args s (Aapt_args command manifest resource_dir asset_dir include
         apk_output r_output configurations rename_manifest_package
         overwrite_version_code overwrite_version_name make_dirs overwrite
         extra_args)).
Proof.
  unfold with_args. destruct s as [h L].
  unfold Aapt_call, Aapt_args. cbn [heap launched]. by build_args.
Qed.

Lemma Aidl_call_run aidl_file preprocessed search_path output_folder :
  Aidl_call host self aidl_file preprocessed search_path output_folder s
  = Program_call host self (length (heap s)) None (VBool false)
      (with_args s (Aidl_args aidl_file preprocessed search_path output_folder)).
Proof.
  unfold with_args. destruct s as [h L].
  unfold Aidl_call, Aidl_args. cbn [heap launched]. by build_args.
Qed.

Lemma LlvmRs_call_run resource_dir resource_gen_dir source_files include_dirs :
  LlvmRs_call host self resource_dir resource_gen_dir source_files include_dirs s
  = Program_call host self (length (heap s)) None (VBool false)
      (with_args s (LlvmRs_args resource_dir resource_gen_dir source_files
                    include_dirs)).
Proof.
  unfold with_args. destruct s as [h L].
  unfold LlvmRs_call, LlvmRs_args. cbn [heap launched]. by build_args.
Qed.

Lemma NdkBuild_call_run project_path :
  NdkBuild_call host self project_path s
  = Program_call host self (length (heap s)) None (VBool false)
      (with_args s (NdkBuild_args project_path)).
Proof.
  unfold with_args. destruct s as [h L].
  unfold NdkBuild_call, NdkBuild_args. cbn [heap launched]. by build_args.
Qed.

Lemma NdkClean_call_run project_path :
  NdkClean_call host self project_path s
  = Program_call host self (length (heap s)) None (VBool false)
      (with_args s (NdkClean_args project_path)).
Proof.
  unfold with_args. destruct s as [h L].
  unfold NdkClean_call, NdkClean_args. cbn [heap launched]. by build_args.
Qed.

Lemma JavaC_call_run files destdir encoding target classpath bootclasspath debug :
  JavaC_call host self files destdir encoding target (map VStr classpath)
    bootclasspath debug s
  = Program_call host self (length (heap s)) None (VBool false)
      (with_args s (JavaC_args files destdir encoding target classpath
                    bootclasspath debug)).
Proof.
  unfold with_args. destruct s as [h L].
  unfold JavaC_call, JavaC_args, JavaC_head, JavaC_tail. cbn [heap launched].
  build_args. unfold join_strs. rewrite as_strs_map_VStr.
  rewrite bind_run. unfold ret at 1. build_args.
  destruct classpath as [|c cp]; reflexivity.
Qed.

Lemma Dx_call_run files output :
  Dx_call host self files output s
  = Program_call host self (length (heap s)) None (VBool false)
      (with_args s (Dx_args files output)).
Proof.
  unfold with_args. destruct s as [h L].
  unfold Dx_call, Dx_args. cbn [heap launched]. by build_args.
Qed.

Lemma ApkBuilder_call_run outputfile dex zips source_dirs jar_paths native_dirs :
  ApkBuilder_call host self outputfile dex zips source_dirs jar_paths native_dirs s
  = bind (getattr (framework self) "sdk_dir")
      (fun sdk_dir =>
         Program_call host self (length (heap s))
           (Some {[ "ANDROID_SDK_DIR" := sdk_dir ]}) (VBool true))
      (with_args s (ApkBuilder_args outputfile dex zips source_dirs jar_paths
                    native_dirs)).
Proof.
  unfold with_args. destruct s as [h L].
  unfold ApkBuilder_call, ApkBuilder_args. cbn [heap launched]. by build_args.
Qed.

Lemma JarSigner_call_run jarfile keystore alias password :
  JarSigner_call host self jarfile keystore alias password s
  = Program_call host self (length (heap s)) None (VBool false)
      (with_args s (JarSigner_args jarfile keystore alias password)).
Proof.
  unfold with_args. destruct s as [h L].
  unfold JarSigner_call, JarSigner_args. cbn [heap launched]. by build_args.
Qed.

Lemma ZipAlign_call_run infile outfile align force :
  ZipAlign_call host self infile outfile align force s
  = Program_call host self (length (heap s)) None (VBool false)
      (with_args s (ZipAlign_args infile outfile align force)).
Proof.
  unfold with_args. destruct s as [h L].
  unfold ZipAlign_call, ZipAlign_args. cbn [heap launched]. by build_args.
Qed.

(** After [Program.__call__] the list built is still the first new
    object. *)
Lemma first_new_list_Program_call args a env shell :
  first_new_list s (Program_call host self a env shell (with_args s args)).2
  = Some args.
Proof.
  unfold first_new_list.
  by rewrite (Program_call_frame _ _ _ _ _ (with_args s args) _ (OList args))
    by apply lookup_snoc_last.
Qed.
End AdapterRuns.

(** ** Membership in the groups *)

Lemma elem_of_group x new c : x ∈ group new c -> x ∈ new.
Proof.
  unfold group. destruct (negb (none_in new) && truthy c); [done|].
  by intros ?%elem_of_nil.
Qed.

Lemma group_no_None new : VNone ∉ new -> group new True_ = new.
Proof.
  intros Hn. unfold group. cbn [True_ truthy]. rewrite andb_true_r.
  destruct (none_in new) eqn:Hin; [by apply none_in_spec in Hin | done].
Qed.

Lemma elem_of_flat_map_group x (f : pyval -> list pyval) c items :
  x ∈ flat_map (fun i => group (f i) c) items ->
  exists i, i ∈ items /\ x ∈ f i.
Proof.
  rewrite list_elem_of_In, in_flat_map. intros (i & Hi & Hx).
  exists i. split; [by apply list_elem_of_In|].
  apply elem_of_group with c. by apply list_elem_of_In.
Qed.

Lemma count_occ_not_elem_of (l : list pyval) x :
  x ∉ l -> count_occ pyval_eq_dec l x = 0%nat.
Proof. rewrite list_elem_of_In. apply count_occ_not_In. Qed.

(** Decides a membership goal from membership hypotheses over list
    displays, by cases. *)
Ltac elem_of_cases :=
  rewrite ?elem_of_app, ?elem_of_cons, ?elem_of_nil in *;
  repeat match goal with
         | H : _ \/ _ |- _ => destruct H as [H|H]
         | H : False |- _ => destruct H
         end;
  first [discriminate | tauto | subst; tauto].

(** ** The adapters *)

(** The adapters other than [Dx] contribute nothing for a parameter left
    at its default. *)
Lemma optional_parameters_left_out :
  (forall command,
      Aapt_args command VNone VNone VNone [] VNone VNone VNone VNone VNone VNone
        VNone VNone [] = [command])
  /\ (forall aidl_file, aidl_file <> VNone ->
        Aidl_args aidl_file VNone VNone VNone = [aidl_file])
  /\ (forall files, JavaC_args files VNone VNone VNone [] VNone VNone
                    = VStr "-g:none" :: files)
  /\ (forall outputfile, ApkBuilder_args outputfile VNone [] [] [] []
                         = [outputfile; VStr "-u"])
  /\ (forall infile outfile align,
        ZipAlign_args infile outfile align VNone
        = [VStr (str_of align); infile; outfile]).
Proof.
  repeat split; try reflexivity.
  intros aidl_file Hf. by destruct aidl_file.
Qed.

(** C4: called with files only, [Dx] builds [--dex], then
    [--output=None], then the files: the parameter left out still
    contributes a fragment, and it reaches the launched command. *)
Theorem Dx_call_without_output host self files s :
  first_new_list s (Dx_call host self files VNone s).2
  = Some (VStr "--dex" :: VStr "--output=None" :: files)
  /\ (forall frags E,
        files = map VStr frags ->
        heap s !! os_environ = Some (ODict E) ->
        exists req,
          launched (Dx_call host self files VNone s).2 = launched s ++ [req]
          /\ argv req = executable self :: "--dex" :: "--output=None" :: frags).
Proof.
  rewrite Dx_call_run. split; [apply first_new_list_Program_call|].
  intros frags E -> HE.
  pose proof (Program_call_reaches_Popen host self (length (heap s)) None
                (VBool false) (with_args s (Dx_args (map VStr frags) VNone))
                ("--dex" :: "--output=None" :: frags) E
                (lookup_snoc_last _ _) (lookup_snoc_old _ _ _ _ HE)) as Hl.
  eexists. split; [exact Hl | reflexivity].
Qed.

(** C8, as amended: for a non-empty classpath the argument list is the
    fragments of the encoding, target and destination, then [-classpath]
    and, as its one companion, the elements joined with [":"] whatever
    the platform, then the fragments of the boot classpath, the debug
    flag and the files; unless a caller's value is itself ["-classpath"],
    the token occurs once. *)
Theorem JavaC_call_classpath host self files destdir encoding target cp
    bootclasspath debug s :
  cp <> [] ->
  exists args,
    first_new_list s
      (JavaC_call host self files destdir encoding target (map VStr cp)
         bootclasspath debug s).2 = Some args
    /\ args = JavaC_head destdir encoding target
              ++ [VStr "-classpath"; VStr (String.concat ":" cp)]
              ++ JavaC_tail files bootclasspath debug
    /\ ((VStr "-classpath" ∉ [destdir; encoding; target; bootclasspath] ++ files) ->
        String.concat ":" cp <> "-classpath" ->
        count_occ pyval_eq_dec args (VStr "-classpath") = 1%nat).
Proof.
  intros Hcp. eexists. split; [|split; [reflexivity|]].
  - rewrite JavaC_call_run, first_new_list_Program_call. unfold JavaC_args.
    by destruct cp.
  - intros Hnot Hj.
    assert (Hhead : VStr "-classpath" ∉ JavaC_head destdir encoding target).
    { unfold JavaC_head. intros Hin. rewrite !elem_of_app in Hin.
      apply Hnot.
      destruct Hin as [Hin|[Hin|[Hin|Hin]]]; apply elem_of_group in Hin;
        elem_of_cases. }
    assert (Htail : VStr "-classpath" ∉ JavaC_tail files bootclasspath debug).
    { unfold JavaC_tail. intros Hin. rewrite !elem_of_app in Hin.
      apply Hnot.
      destruct Hin as [Hin|[Hin|Hin]].
      - apply elem_of_group in Hin. elem_of_cases.
      - apply list_elem_of_singleton in Hin. by destruct (truthy debug).
      - elem_of_cases. }
    rewrite !count_occ_app, (count_occ_not_elem_of _ _ Hhead),
      (count_occ_not_elem_of _ _ Htail).
    cbn [count_occ]. destruct (pyval_eq_dec _ _) as [|Hne]; [|done].
    destruct (pyval_eq_dec _ _) as [Heq|]; [|done].
    by injection Heq.
Qed.

(** C9, as amended: when a version name is given, [Aapt] emits
    [--version-code] followed by that name; and [--version-name] is in the
    argument list only if the caller supplied it as a value (the extra
    arguments, say): the adapter never contributes it itself. *)
Theorem Aapt_call_version_name host self command manifest resource_dir asset_dir
    include apk_output r_output configurations rename_manifest_package
    overwrite_version_code overwrite_version_name make_dirs overwrite extra_args s :
  exists args,
    first_new_list s
      (Aapt_call host self command manifest resource_dir asset_dir include
         apk_output r_output configurations rename_manifest_package
         overwrite_version_code overwrite_version_name make_dirs overwrite
         extra_args s).2 = Some args
    /\ (overwrite_version_name <> VNone ->
        exists pre post,
          args = pre ++ [VStr "--version-code"; overwrite_version_name] ++ post)
    /\ ((VStr "--version-name" ∈ args) ->
        VStr "--version-name" ∈
          [command; manifest; resource_dir; asset_dir; configurations;
           VStr (str_of overwrite_version_code); overwrite_version_name;
           rename_manifest_package; apk_output; r_output]
          ++ include ++ extra_args).
Proof.
  eexists. split; [|split].
  - rewrite Aapt_call_run. apply first_new_list_Program_call.
  - intros Hname. unfold Aapt_args.
    rewrite (group_no_None [VStr "--version-code"; overwrite_version_name]).
    + match goal with
      | |- context [?c ++ ?m ++ ?M ++ ?S ++ ?A ++ ?cf ++ ?vc ++ [_; _] ++ ?post] =>
          exists (c ++ m ++ M ++ S ++ A ++ cf ++ vc), post
      end.
      by rewrite <- !app_assoc.
    + intros Hin. apply elem_of_cons in Hin as [?|Hin]; [done|].
      apply list_elem_of_singleton in Hin. by apply Hname.
  - unfold Aapt_args. rewrite !elem_of_app.
    intros Hin.
    repeat match goal with
           | H : _ \/ _ |- _ => destruct H as [H|H]
           | H : _ ∈ (if ?b then _ else _) |- _ => destruct b
           | H : _ ∈ group _ _ |- _ => apply elem_of_group in H
           | H : _ ∈ flat_map _ _ |- _ =>
               apply elem_of_flat_map_group in H as (item & Hitem & H)
           end;
      elem_of_cases.
Qed.

(** C10: on a program whose framework is [None], [ApkBuilder] raises
    [AttributeError] and asks [Popen] for nothing; it raises that error
    exactly when the framework is [None] or has no [sdk_dir]; and the
    nine other adapters do the same whatever the framework is. *)
Theorem ApkBuilder_call_needs_framework host exe :
  (forall outputfile dex zips source_dirs jar_paths native_dirs s,
      (ApkBuilder_call host (Program_init exe FwNone) outputfile dex zips
         source_dirs jar_paths native_dirs s).1 = Raise AttributeError
      /\ launched (ApkBuilder_call host (Program_init exe FwNone) outputfile dex
                     zips source_dirs jar_paths native_dirs s).2 = launched s)
  /\ (forall fw outputfile dex zips source_dirs jar_paths native_dirs s,
        (ApkBuilder_call host (Program_init exe fw) outputfile dex zips
           source_dirs jar_paths native_dirs s).1 = Raise AttributeError
        <-> (fw = FwNone
             \/ exists attrs, fw = FwObj attrs /\ attrs !! "sdk_dir" = None))
  /\ (forall fw fw',
        Aapt_call host (Program_init exe fw) = Aapt_call host (Program_init exe fw')
        /\ Aidl_call host (Program_init exe fw) = Aidl_call host (Program_init exe fw')
        /\ LlvmRs_call host (Program_init exe fw)
           = LlvmRs_call host (Program_init exe fw')
        /\ NdkBuild_call host (Program_init exe fw)
           = NdkBuild_call host (Program_init exe fw')
        /\ NdkClean_call host (Program_init exe fw)
           = NdkClean_call host (Program_init exe fw')
        /\ JavaC_call host (Program_init exe fw) = JavaC_call host (Program_init exe fw')
        /\ Dx_call host (Program_init exe fw) = Dx_call host (Program_init exe fw')
        /\ JarSigner_call host (Program_init exe fw)
           = JarSigner_call host (Program_init exe fw')
        /\ ZipAlign_call host (Program_init exe fw)
           = ZipAlign_call host (Program_init exe fw')).
Proof.
  split; [|split].
  - intros. by rewrite ApkBuilder_call_run.
  - intros fw outputfile dex zips source_dirs jar_paths native_dirs s.
    rewrite ApkBuilder_call_run, bind_run. cbn [Program_init framework].
    destruct fw as [|attrs]; unfold getattr.
    + split; [by left | done].
    + destruct (attrs !! "sdk_dir") as [d|] eqn:Hd; unfold ret, raise.
      * split.
        -- intros Hr. by apply Program_call_not_AttributeError in Hr.
        -- intros [?|(attrs' & [= <-] & Hd')]; [done | congruence].
      * split; [|done]. intros _. right. by exists attrs.
  - intros fw fw'. repeat split; reflexivity.
Qed.

(** ** Instances *)

(** C1, at a child that exits with code 7 and at one that exits with
    code 0. *)
Lemma Program_call_fails_iff_exit_nonzero_witness :
  (exists e,
      (Program_call (posix_host 7) (Program_init "aapt" FwNone) 1%nat None
         (VBool false) (sample_store_with [VStr "package"])).1
      = Raise (ProgramFailed e)
      /\ cmdline e = "aapt package"
      /\ returncode e = 7)
  /\ (Program_call (posix_host 0) (Program_init "aapt" FwNone) 1%nat None
        (VBool false) (sample_store_with [VStr "package"])).1
     = Return "aapt package".
Proof.
  split.
  - destruct (proj2 (proj2 (proj2 (Program_call_fails_iff_exit_nonzero
                (posix_host 7) (Program_init "aapt" FwNone) 1%nat None
                (VBool false) (sample_store_with [VStr "package"]))))
                ["package"] sample_environ eq_refl eq_refl)
      as (req & Hl & Hargv & Hres).
    destruct (Hres 7 "ok" "boom" eq_refl) as [_ Hfail].
    destruct (Hfail ltac:(discriminate)) as (e & He & Hcmd & Hcode).
    exists e. split; [exact He|]. split; [|exact Hcode].
    rewrite Hcmd, Hargv. reflexivity.
  - destruct (proj2 (proj2 (proj2 (Program_call_fails_iff_exit_nonzero
                (posix_host 0) (Program_init "aapt" FwNone) 1%nat None
                (VBool false) (sample_store_with [VStr "package"]))))
                ["package"] sample_environ eq_refl eq_refl)
      as (req & Hl & Hargv & Hres).
    destruct (Hres 0 "ok" "boom" eq_refl) as [Hok _].
    rewrite (Hok eq_refl), Hargv. reflexivity.
Defined.

(** C2, at a child that exits with code 7 after writing ["ok"] to its output
    and ["boom"] to its error stream. *)
Lemma Program_call_failure_streams_swapped_witness :
  exists e,
    (Program_call (posix_host 7) (Program_init "aapt" FwNone) 1%nat None
       (VBool false) (sample_store_with [VStr "package"])).1
    = Raise (ProgramFailed e)
    /\ stdout e = Some "boom"
    /\ stderr e = Some "ok".
Proof.
  apply (Program_call_failure_streams_swapped (posix_host 7)
           (Program_init "aapt" FwNone) 1%nat None (VBool false)
           (sample_store_with [VStr "package"])
           (mkLaunch ["aapt"; "package"] false sample_environ) 7 "ok" "boom").
  - vm_compute; reflexivity.
  - reflexivity.
  - discriminate.
Defined.

(** C3, at a group with a value and at one whose value is [None]. *)
Lemma extend_args_all_or_nothing_witness :
  extend_args 1%nat [VStr "-M"; VStr "AndroidManifest.xml"] True_
    (sample_store_with [VStr "package"])
  = (Return tt,
     sample_store_with [VStr "package"; VStr "-M"; VStr "AndroidManifest.xml"])
  /\ extend_args 1%nat [VStr "-M"; VNone] True_ (sample_store_with [VStr "package"])
     = (Return tt, sample_store_with [VStr "package"]).
Proof.
  split.
  - apply (proj1 (extend_args_all_or_nothing 1%nat [VStr "package"]
                    [VStr "-M"; VStr "AndroidManifest.xml"] True_
                    (sample_store_with [VStr "package"]) eq_refl)).
    split; [|reflexivity].
    intros Hin. repeat (apply elem_of_cons in Hin as [Hin|Hin]; [discriminate|]).
    by apply elem_of_nil in Hin.
  - apply (proj1 (proj2 (extend_args_all_or_nothing 1%nat [VStr "package"]
                           [VStr "-M"; VNone] True_
                           (sample_store_with [VStr "package"]) eq_refl))).
    left. apply list_elem_of_further, list_elem_of_here.
Defined.

(** C4, at one class file. *)
Lemma Dx_call_without_output_witness :
  first_new_list sample_store
    (Dx_call (posix_host 0) (Program_init "dx" FwNone) [VStr "classes"] VNone
       sample_store).2
  = Some [VStr "--dex"; VStr "--output=None"; VStr "classes"].
Proof.
  apply (proj1 (Dx_call_without_output (posix_host 0) (Program_init "dx" FwNone)
                  [VStr "classes"] sample_store)).
Defined.

(** C5, in the shell-wrapper mode off Windows. *)
Lemma Program_call_returns_launched_cmdline_witness :
  (Program_call (posix_host 0) (Program_init "apkbuilder" FwNone) 1%nat
     (Some {[ "ANDROID_SDK_DIR" := "/sdk" ]}) (VBool true)
     (sample_store_with [VStr "out.apk"; VStr "-u"])).1
  = Return "/bin/sh apkbuilder out.apk -u".
Proof.
  apply (Program_call_returns_launched_cmdline (posix_host 0)
           (Program_init "apkbuilder" FwNone) 1%nat
           (Some {[ "ANDROID_SDK_DIR" := "/sdk" ]}) (VBool true)
           (sample_store_with [VStr "out.apk"; VStr "-u"]) ["out.apk"; "-u"]
           (mkLaunch ["/bin/sh"; "apkbuilder"; "out.apk"; "-u"] false
              ({[ "ANDROID_SDK_DIR" := "/sdk" ]} ∪ sample_environ))
           "ok" "boom").
  - reflexivity.
  - vm_compute; reflexivity.
  - reflexivity.
Defined.

(** C5, as first stated, fails in the shell-wrapper mode off Windows: the
    child exits with code 0 and the string returned starts with
    ["/bin/sh"], not with the executable. *)
Lemma Program_call_shell_cmdline_counterexample :
  child (posix_host 0) []
    (mkLaunch ["/bin/sh"; "apkbuilder"; "out.apk"; "-u"] false
       ({[ "ANDROID_SDK_DIR" := "/sdk" ]} ∪ sample_environ))
  = Exited 0 "ok" "boom"
  /\ (Program_call (posix_host 0) (Program_init "apkbuilder" FwNone) 1%nat
        (Some {[ "ANDROID_SDK_DIR" := "/sdk" ]}) (VBool true)
        (sample_store_with [VStr "out.apk"; VStr "-u"])).1
     = Return "/bin/sh apkbuilder out.apk -u"
  /\ (Program_call (posix_host 0) (Program_init "apkbuilder" FwNone) 1%nat
        (Some {[ "ANDROID_SDK_DIR" := "/sdk" ]}) (VBool true)
        (sample_store_with [VStr "out.apk"; VStr "-u"])).1
     <> Return (String.concat " " ("apkbuilder" :: ["out.apk"; "-u"])).
Proof.
  split; [reflexivity|]. split; [vm_compute; reflexivity|].
  vm_compute. discriminate.
Qed.

(** C6, off Windows and on Windows. *)
Lemma Program_call_shell_wrapper_witness :
  (exists req,
      launched (Program_call (posix_host 0) (Program_init "apkbuilder" FwNone)
                  1%nat None (VBool true)
                  (sample_store_with [VStr "out.apk"; VStr "-u"])).2 = [req]
      /\ argv req = ["/bin/sh"; "apkbuilder"; "out.apk"; "-u"]
      /\ use_shell req = false)
  /\ (exists req,
        launched (Program_call (windows_host 0) (Program_init "apkbuilder" FwNone)
                    1%nat None (VBool true)
                    (sample_store_with [VStr "out.apk"; VStr "-u"])).2 = [req]
        /\ argv req = ["apkbuilder"; "out.apk"; "-u"]
        /\ use_shell req = true).
Proof.
  split.
  - destruct (Program_call_shell_wrapper (posix_host 0)
                (Program_init "apkbuilder" FwNone) 1%nat None (VBool true)
                (sample_store_with [VStr "out.apk"; VStr "-u"]) ["out.apk"; "-u"]
                sample_environ eq_refl eq_refl) as (req & Hl & Hposix & _).
    exists req. split; [exact Hl | exact (Hposix eq_refl eq_refl)].
  - destruct (Program_call_shell_wrapper (windows_host 0)
                (Program_init "apkbuilder" FwNone) 1%nat None (VBool true)
                (sample_store_with [VStr "out.apk"; VStr "-u"]) ["out.apk"; "-u"]
                sample_environ eq_refl eq_refl) as (req & Hl & _ & _ & Hwin).
    exists req. split; [exact Hl | exact (Hwin eq_refl)].
Defined.

(** C7, with an overlay that replaces [HOME]. *)
Lemma Program_call_environment_witness :
  heap (Program_call (posix_host 0) (Program_init "aapt" FwNone) 1%nat
          (Some {[ "HOME" := "/tmp" ]}) (VBool false)
          (sample_store_with [VStr "package"])).2 !! os_environ
  = Some (ODict sample_environ)
  /\ exists req,
       launched (Program_call (posix_host 0) (Program_init "aapt" FwNone) 1%nat
                   (Some {[ "HOME" := "/tmp" ]}) (VBool false)
                   (sample_store_with [VStr "package"])).2 = [req]
       /\ child_env req !! "HOME" = Some "/tmp"
       /\ child_env req !! "PATH" = Some "/usr/bin".
Proof.
  destruct (Program_call_environment (posix_host 0) (Program_init "aapt" FwNone)
              1%nat (Some {[ "HOME" := "/tmp" ]}) (VBool false)
              (sample_store_with [VStr "package"]) [VStr "package"] sample_environ
              eq_refl eq_refl) as (Henv & _ & Hchild & Hlaunch).
  split; [exact Henv|].
  destruct (Hlaunch ["package"] eq_refl) as (req & Hl).
  exists req. split; [exact Hl|].
  split; [exact (Hchild req Hl "HOME") | exact (Hchild req Hl "PATH")].
Defined.

(** C8, at the classpath [a], [b], [c]. *)
Lemma JavaC_call_classpath_witness :
  exists args,
    first_new_list sample_store
      (JavaC_call (posix_host 0) (Program_init "javac" FwNone) [VStr "A.java"]
         VNone VNone VNone (map VStr ["a"; "b"; "c"]) VNone VNone sample_store).2
    = Some args
    /\ args = [VStr "-classpath"; VStr "a:b:c"; VStr "-g:none"; VStr "A.java"]
    /\ count_occ pyval_eq_dec args (VStr "-classpath") = 1%nat.
Proof.
  destruct (JavaC_call_classpath (posix_host 0) (Program_init "javac" FwNone)
              [VStr "A.java"] VNone VNone VNone ["a"; "b"; "c"] VNone VNone
              sample_store ltac:(discriminate)) as (args & Hargs & Heq & Hone).
  exists args. split; [exact Hargs|]. split; [exact Heq|].
  apply Hone; [|discriminate].
  intros Hin. repeat (apply elem_of_cons in Hin as [Hin|Hin]; [discriminate|]).
  by apply elem_of_nil in Hin.
Defined.

(** C8, as first stated, fails on Windows: the platform's path separator
    is [";"], and the classpath is still joined with [":"]. *)
Lemma JavaC_call_classpath_counterexample :
  is_win32 (windows_host 0) = true
  /\ String.concat (spec_platform_pathsep (windows_host 0)) ["a"; "b"; "c"] = "a;b;c"
  /\ first_new_list sample_store
       (JavaC_call (windows_host 0) (Program_init "javac" FwNone) [VStr "A.java"]
          VNone VNone VNone (map VStr ["a"; "b"; "c"]) VNone VNone sample_store).2
     = Some [VStr "-classpath"; VStr "a:b:c"; VStr "-g:none"; VStr "A.java"]
  /\ first_new_list sample_store
       (JavaC_call (windows_host 0) (Program_init "javac" FwNone) [VStr "A.java"]
          VNone VNone VNone (map VStr ["a"; "b"; "c"]) VNone VNone sample_store).2
     <> Some [VStr "-classpath";
              VStr (String.concat (spec_platform_pathsep (windows_host 0))
                      ["a"; "b"; "c"]);
              VStr "-g:none"; VStr "A.java"].
Proof.
  split; [reflexivity|]. split; [reflexivity|]. split; [vm_compute; reflexivity|].
  vm_compute. discriminate.
Qed.

(** C9, at the version name [1.2]. *)
Lemma Aapt_call_version_name_witness :
  exists args,
    first_new_list sample_store
      (Aapt_call (posix_host 0) (Program_init "aapt" FwNone) (VStr "package")
         VNone VNone VNone [] VNone VNone VNone VNone VNone (VStr "1.2") VNone VNone
         [] sample_store).2 = Some args
    /\ exists pre post,
         args = pre ++ [VStr "--version-code"; VStr "1.2"] ++ post.
Proof.
  destruct (Aapt_call_version_name (posix_host 0) (Program_init "aapt" FwNone)
              (VStr "package") VNone VNone VNone [] VNone VNone VNone VNone VNone
              (VStr "1.2") VNone VNone [] sample_store) as (args & Hargs & Hpair & _).
  exists args. split; [exact Hargs|]. apply Hpair. discriminate.
Defined.

(** C9, as first stated, fails when the caller passes [--version-name]
    among the extra arguments: the token is in the argument list, in the
    launched argv and in the command line returned. *)
Lemma Aapt_call_version_name_counterexample :
  first_new_list sample_store
    (Aapt_call (posix_host 0) (Program_init "aapt" FwNone) (VStr "package")
       VNone VNone VNone [] VNone VNone VNone VNone VNone (VStr "1.2") VNone VNone
       [VStr "--version-name"; VStr "9.9"] sample_store).2
  = Some [VStr "package"; VStr "--version-code"; VStr "1.2";
          VStr "--version-name"; VStr "9.9"]
  /\ argv <$> launched
       (Aapt_call (posix_host 0) (Program_init "aapt" FwNone) (VStr "package")
          VNone VNone VNone [] VNone VNone VNone VNone VNone (VStr "1.2") VNone
          VNone [VStr "--version-name"; VStr "9.9"] sample_store).2
     = [["aapt"; "package"; "--version-code"; "1.2"; "--version-name"; "9.9"]]
  /\ (Aapt_call (posix_host 0) (Program_init "aapt" FwNone) (VStr "package")
        VNone VNone VNone [] VNone VNone VNone VNone VNone (VStr "1.2") VNone VNone
        [VStr "--version-name"; VStr "9.9"] sample_store).1
     = Return "aapt package --version-code 1.2 --version-name 9.9".
Proof.
  split; [vm_compute; reflexivity|]. split; vm_compute; reflexivity.
Qed.


(** ** Sample runs *)

Example ZipAlign_call_run_forced :
  (ZipAlign_call (posix_host 0) (Program_init "zipalign" FwNone)
     (VStr "in.apk") (VStr "out.apk") (VInt 4) (VBool true) sample_store).1
  = Return "zipalign -f 4 in.apk out.apk".
Proof. vm_compute. reflexivity. Qed.

Example Aidl_call_run_search_path :
  (Aidl_call (posix_host 0) (Program_init "aidl" FwNone)
     (VStr "I.aidl") VNone (VStr "src") VNone sample_store).1
  = Return "aidl -Isrc I.aidl".
Proof. vm_compute. reflexivity. Qed.

Example Aapt_call_run_both_versions :
  (Aapt_call (posix_host 0) (Program_init "aapt" FwNone) (VStr "package")
     VNone VNone VNone [VStr "android.jar"] VNone VNone VNone VNone
     (VInt 3) (VStr "1.2") (VBool true) VNone [] sample_store).1
  = Return "aapt package -m --version-code 3 --version-code 1.2 -I android.jar".
Proof. vm_compute. reflexivity. Qed.

Example ApkBuilder_call_run_with_framework :
  (ApkBuilder_call (posix_host 0)
     (Program_init "apkbuilder" (FwObj {[ "sdk_dir" := "/opt/sdk" ]}))
     (VStr "out.apk") (VStr "classes.dex") [VStr "res.zip"] [] [] []
     sample_store).1
  = Return "/bin/sh apkbuilder out.apk -u -f classes.dex -z res.zip".
Proof. vm_compute. reflexivity. Qed.

Example JarSigner_call_run_failure :
  (JarSigner_call (posix_host 7) (Program_init "jarsigner" FwNone)
     (VStr "app.apk") (VStr "debug.keystore") (VStr "key") (VStr "secret")
     sample_store).1
  = Raise (ProgramFailed
      (mkProgramFailedError
         "jarsigner -keystore debug.keystore -storepass secret -digestalg SHA1 -sigalg MD5withRSA app.apk key"
         7 (Some "boom") (Some "ok"))).
Proof. vm_compute. reflexivity. Qed.

(** * Further results *)

(** ** More on the invoker *)

Lemma as_strs_None l v :
  v ∈ l -> (forall t, v <> VStr t) -> as_strs l = None.
Proof.
  intros Hin Hv. destruct (as_strs l) as [ss|] eqn:Hs; [|done].
  apply as_strs_Some in Hs. subst l.
  apply list_elem_of_In, in_map_iff in Hin as (t & <- & _). by destruct (Hv t).
Qed.


Lemma Program_call_TypeError_run host self a env shell s items v :
  heap s !! a = Some (OList items) ->
  v ∈ items ->
  (forall t, v <> VStr t) ->
  Program_call host self a env shell s
  = (Raise TypeError,
     mkStore (heap s ++ [OList (launch_items host shell (executable self) items)])
       (launched s)).
Proof.
  intros Ha Hin Hv. rewrite Program_call_unfold, Ha. cbv zeta.
  by rewrite (as_strs_None _ v); [|unfold launch_items; set_solver|].
Qed.

(** X1: A fragment that is not a string makes [Program.__call__] raise
    [TypeError] at the join, before [os.environ] is copied and before
    [Popen] is asked. *)
Theorem Program_call_rejects_non_string host self a env shell s items v :
  heap s !! a = Some (OList items) ->
  v ∈ items ->
  (forall t, v <> VStr t) ->
  (Program_call host self a env shell s).1 = Raise TypeError
  /\ launched (Program_call host self a env shell s).2 = launched s
  /\ length (heap (Program_call host self a env shell s).2) = S (length (heap s)).
Proof.
  intros Ha Hin Hv. rewrite (Program_call_TypeError_run _ _ _ _ _ _ items v) by done.
  cbn [fst snd heap launched]. rewrite length_app. cbn. repeat split; lia.
Qed.

(** X2: When the host cannot start the process, [Program.__call__] raises
    [OSError], not [ProgramFailedError]; the request has been made. *)
Theorem Program_call_launch_failure host self a env shell s frags E :
  heap s !! a = Some (OList (map VStr frags)) ->
  heap s !! os_environ = Some (ODict E) ->
  child host (launched s)
    (mkLaunch (launch_argv host shell (executable self) frags) (is_win32 host)
       (or_empty env ∪ E)) = LaunchFailed ->
  (Program_call host self a env shell s).1 = Raise OSError
  /\ launched (Program_call host self a env shell s).2
     = launched s ++ [mkLaunch (launch_argv host shell (executable self) frags)
                        (is_win32 host) (or_empty env ∪ E)].
Proof.
  intros Ha HE Hc.
  pose proof (Program_call_reaches_Popen host self a env shell s frags E Ha HE) as Hl.
  split; [|done].
  destruct (Program_call_launch _ _ _ _ _ _ _ Hl) as (_ & _ & _ & _ & _ & _ & _ & ->).
  cbn [argv]. by rewrite Hc.
Qed.

(** X3: [Program.__call__] returns normally only after a child it launched
    has exited with code 0, and what it returns is that child's argv
    joined by spaces. *)
Theorem Program_call_returns_only_on_exit_0 host self a env shell s v :
  (Program_call host self a env shell s).1 = Return v ->
  exists req out err,
    launched (Program_call host self a env shell s).2 = launched s ++ [req]
    /\ child host (launched s) req = Exited 0 out err
    /\ v = String.concat " " (argv req).
Proof.
  rewrite Program_call_unfold.
  destruct (heap s !! a) as [[items|d]|]; try done. cbv zeta.
  destruct (as_strs _) as [ss|]; [|done].
  destruct (heap s !! os_environ) as [[l0|E]|]; try done. cbn [fst snd launched].
  set (req := mkLaunch _ _ _).
  destruct (child host (launched s) req) as [|code out err] eqn:Hc; [done|].
  cbn [call_result]. destruct (code =? 0) eqn:Hz; [|done].
  apply Z.eqb_eq in Hz as ->. intros [= <-]. by exists req, out, err.
Qed.

(** X4: The message of the error [Program.__call__] raises is the launched
    command line, then [failed with code], then the exit code, when the
    command line is ASCII. *)
Theorem Program_call_failure_message host self a env shell s e :
  (Program_call host self a env shell s).1 = Raise (ProgramFailed e) ->
  is_ascii (cmdline e) = true ->
  exists req out err,
    launched (Program_call host self a env shell s).2 = launched s ++ [req]
    /\ child host (launched s) req = Exited (returncode e) out err
    /\ ProgramFailedError_unicode e
       = Some (String.concat " " (argv req) +:+ " failed with code "
               +:+ pretty (returncode e)).
Proof.
  rewrite Program_call_unfold.
  destruct (heap s !! a) as [[items|d]|]; try done. cbv zeta.
  destruct (as_strs _) as [ss|]; [|done].
  destruct (heap s !! os_environ) as [[l0|E]|]; try done. cbn [fst snd launched].
  set (req := mkLaunch _ _ _).
  destruct (child host (launched s) req) as [|code out err] eqn:Hc; [done|].
  cbn [call_result]. destruct (code =? 0) eqn:Hz; [done|].
  intros [= <-]. cbn [cmdline returncode]. intros Hascii.
  exists req, out, err. repeat split; try done.
  unfold ProgramFailedError_unicode. cbn [cmdline returncode]. by rewrite Hascii.
Qed.

(** ** Loops of [extend_args] *)

(** X5: A loop of [extend_args] over [items] never raises and appends, in the
    order of [items], the groups that hold no [None] (all of them or none
    of them, by the condition). *)
Theorem for_each_extend_args_run args l (items : list pyval)
    (new : pyval -> list pyval) condition s :
  heap s !! args = Some (OList l) ->
  for_each items (fun item => extend_args args (new item) condition) s
  = (Return tt,
     mkStore
       (<[args := OList
            (l ++ flat_map
                    (fun item =>
                       if negb (none_in (new item)) && truthy condition
                       then new item else [])
                    items)]> (heap s))
       (launched s)).
Proof.
  revert l s. induction items as [|x r IH]; intros l s Ha; cbn [for_each flat_map].
  - rewrite app_nil_r, list_insert_id by done. by destruct s.
  - rewrite bind_run, (extend_args_run _ l) by done.
    rewrite (IH (l ++ group (new x) condition)).
    + cbn [heap launched]. by rewrite list_insert_insert_eq, app_assoc.
    + cbn [heap]. apply list_lookup_insert_eq. by eapply lookup_lt_Some.
Qed.

(** ** Groups and [None] *)

Lemma group_flag_value flag v :
  group [VStr flag; v] True_ = if decide (v = VNone) then [] else [VStr flag; v].
Proof. by destruct v. Qed.

Lemma group_value v :
  group [v] True_ = if decide (v = VNone) then [] else [v].
Proof. by destruct v. Qed.

Lemma group_flag flag c : group [VStr flag] c = if truthy c then [VStr flag] else [].
Proof. reflexivity. Qed.

Lemma flat_map_group_flag_value flag (l : list pyval) :
  flat_map (fun i => group [VStr flag; i] True_) l
  = flat_map (fun i => [VStr flag; i]) (not_None l).
Proof.
  unfold not_None. induction l as [|x r IH]; [done|].
  cbn [flat_map]. rewrite filter_cons, IH, group_flag_value.
  destruct x; by repeat case_decide.
Qed.

Lemma flat_map_group_value (l : list pyval) :
  flat_map (fun i => group [i] True_) l = not_None l.
Proof.
  unfold not_None. induction l as [|x r IH]; [done|].
  cbn [flat_map]. rewrite filter_cons, IH, group_value.
  destruct x; by repeat case_decide.
Qed.

Lemma flat_map_flag_strs flag (l : list string) :
  flat_map (fun i => [VStr flag; i]) (map VStr l)
  = map VStr (flat_map (fun i => [flag; i]) l).
Proof. induction l as [|x r IH]; [done|]. cbn. by rewrite IH. Qed.

(** ** Every adapter *)



Lemma JavaC_call_TypeError host self files destdir encoding target classpath
    bootclasspath debug s :
  as_strs classpath = None ->
  JavaC_call host self files destdir encoding target classpath bootclasspath debug s
  = (Raise TypeError, with_args s (JavaC_head destdir encoding target)).
Proof.
  intros Hcp. unfold with_args. destruct s as [h L].
  unfold JavaC_call, JavaC_head. cbn [heap launched]. build_args.
  unfold join_strs. by rewrite Hcp.
Qed.


(** ** What the adapters launch *)

(** Where an adapter's argument list is the strings [frags], the request
    made and the answer. *)
Lemma Program_call_with_args host self env shell s frags E :
  heap s !! os_environ = Some (ODict E) ->
  launched (Program_call host self (length (heap s)) env shell
              (with_args s (map VStr frags))).2
  = launched s ++ [mkLaunch (launch_argv host shell (executable self) frags)
                     (is_win32 host) (or_empty env ∪ E)]
  /\ (Program_call host self (length (heap s)) env shell
        (with_args s (map VStr frags))).1
     = call_result
         (String.concat " " (launch_argv host shell (executable self) frags))
         (child host (launched s)
            (mkLaunch (launch_argv host shell (executable self) frags)
               (is_win32 host) (or_empty env ∪ E))).
Proof.
  intros HE.
  pose proof (Program_call_reaches_Popen host self (length (heap s)) env shell
                (with_args s (map VStr frags)) frags E
                (lookup_snoc_last _ _) (lookup_snoc_old _ _ _ _ HE)) as Hl.
  split; [exact Hl|].
  by destruct (Program_call_launch _ _ _ _ _ _ _ Hl) as (_ & _ & _ & _ & _ & _ & _ & ->).
Qed.

Lemma Program_call_with_args_TypeError host self env shell s args v :
  v ∈ args ->
  (forall t, v <> VStr t) ->
  (Program_call host self (length (heap s)) env shell (with_args s args)).1
  = Raise TypeError
  /\ launched (Program_call host self (length (heap s)) env shell
                 (with_args s args)).2 = launched s.
Proof.
  intros Hin Hv.
  by rewrite (Program_call_TypeError_run host self (length (heap s)) env shell
                (with_args s args) args v (lookup_snoc_last _ _) Hin Hv).
Qed.

(** ** The adapters, one by one *)

(** X7: [ApkBuilder], on a framework with an [sdk_dir] and string parameters:
    the child gets [ANDROID_SDK_DIR] set to it, whatever [os.environ] says,
    and the rest of [os.environ]; off Windows the argv starts with
    ["/bin/sh"]; every list entry becomes a flag and value pair, in
    order. *)
Theorem ApkBuilder_call_with_framework host exe attrs sdk_dir outputfile dex
    zips source_dirs jar_paths native_dirs s E :
  attrs !! "sdk_dir" = Some sdk_dir ->
  heap s !! os_environ = Some (ODict E) ->
  exists req,
    launched (ApkBuilder_call host (Program_init exe (FwObj attrs))
                (VStr outputfile) (VStr dex) (map VStr zips) (map VStr source_dirs)
                (map VStr jar_paths) (map VStr native_dirs) s).2
    = launched s ++ [req]
    /\ argv req
       = (if is_win32 host then [] else ["/bin/sh"])
         ++ exe :: outputfile :: "-u" :: "-f" :: dex
            :: flat_map (fun zip => ["-z"; zip]) zips
            ++ flat_map (fun source_dir => ["-rf"; source_dir]) source_dirs
            ++ flat_map (fun item => ["-rj"; item]) jar_paths
            ++ flat_map (fun item => ["-nf"; item]) native_dirs
    /\ use_shell req = is_win32 host
    /\ child_env req !! "ANDROID_SDK_DIR" = Some sdk_dir
    /\ (forall k, k <> "ANDROID_SDK_DIR" -> child_env req !! k = E !! k).
Proof.
  intros Hsdk HE. rewrite ApkBuilder_call_run, bind_run.
  cbn [Program_init framework]. unfold getattr. rewrite Hsdk. unfold ret.
  unfold ApkBuilder_args. rewrite group_flag_value.
  destruct (decide (VStr dex = VNone)) as [|_]; [done|].
  rewrite !flat_map_flag_strs.
  change ([VStr outputfile; VStr "-u"] ++ [VStr "-f"; VStr dex] ++ ?a ++ ?b ++ ?c ++ ?d)
    with (map VStr [outputfile; "-u"; "-f"; dex] ++ a ++ b ++ c ++ d).
  rewrite <- !map_app.
  destruct (Program_call_with_args host (mkProgram exe (FwObj attrs))
              (Some {[ "ANDROID_SDK_DIR" := sdk_dir ]}) (VBool true) s
              ([outputfile; "-u"; "-f"; dex]
               ++ flat_map (fun zip => ["-z"; zip]) zips
               ++ flat_map (fun source_dir => ["-rf"; source_dir]) source_dirs
               ++ flat_map (fun item => ["-rj"; item]) jar_paths
               ++ flat_map (fun item => ["-nf"; item]) native_dirs) E HE)
    as [Hl _].
  eexists. split; [exact Hl|]. cbn [argv use_shell child_env executable].
  assert (Hov : or_empty (Some ({[ "ANDROID_SDK_DIR" := sdk_dir ]} : gmap string string))
                = {[ "ANDROID_SDK_DIR" := sdk_dir ]}).
  { unfold or_empty. case_decide as Hemp; [|done].
    apply (f_equal (fun m : gmap string string => m !! "ANDROID_SDK_DIR")) in Hemp.
    by rewrite lookup_singleton_eq, lookup_empty in Hemp. }
  rewrite Hov. repeat split.
  - unfold launch_argv. cbn [truthy andb]. by destruct (is_win32 host).
  - apply lookup_union_Some_l, lookup_singleton_eq.
  - intros k Hk. rewrite lookup_union_r; [done|]. by apply lookup_singleton_ne.
Qed.

(** X8: [LlvmRs] leaves out the include directories and the source files
    that are [None] and keeps the others in their order. *)
Theorem LlvmRs_call_skips_None host self resource_dir resource_gen_dir
    source_files include_dirs s :
  resource_dir <> VNone ->
  resource_gen_dir <> VNone ->
  first_new_list s
    (LlvmRs_call host self resource_dir resource_gen_dir source_files
       include_dirs s).2
  = Some (flat_map (fun include => [VStr "-I"; include]) (not_None include_dirs)
          ++ [VStr "-o"; resource_dir;
              VStr "-java-reflection-path-base"; resource_gen_dir]
          ++ not_None source_files).
Proof.
  intros Hrd Hrgd. rewrite LlvmRs_call_run, first_new_list_Program_call.
  unfold LlvmRs_args.
  rewrite flat_map_group_flag_value, flat_map_group_value, !group_flag_value.
  by repeat case_decide.
Qed.

(** X9: [Aapt], other options left out: one [-I] pair for each include that
    is not [None], in order; and the extra arguments all together, or
    none of them if one is [None]. *)
Theorem Aapt_call_include_extra_args host self command include extra_args s :
  first_new_list s
    (Aapt_call host self command VNone VNone VNone include VNone VNone VNone
       VNone VNone VNone VNone VNone extra_args s).2
  = Some (command
          :: flat_map (fun item => [VStr "-I"; item]) (not_None include)
          ++ (if none_in extra_args then [] else extra_args)).
Proof.
  rewrite Aapt_call_run, first_new_list_Program_call. unfold Aapt_args.
  rewrite flat_map_group_flag_value. cbn [group none_in existsb is_none negb andb
    truthy True_ orb app]. unfold group. cbn [True_ truthy].
  rewrite andb_true_r. by destruct (none_in extra_args).
Qed.

(** X10: [Aapt], other options left out: a version code that is false in
    Python (0, the empty string, [None]) gives no fragment, any other is
    formatted after [--version-code]; a version name follows, again
    after [--version-code]. *)
Theorem Aapt_call_version_code host self command overwrite_version_code
    overwrite_version_name s :
  first_new_list s
    (Aapt_call host self command VNone VNone VNone [] VNone VNone VNone VNone
       overwrite_version_code overwrite_version_name VNone VNone [] s).2
  = Some (command
          :: (if truthy overwrite_version_code
              then [VStr "--version-code"; VStr (str_of overwrite_version_code)]
              else [])
          ++ (if decide (overwrite_version_name = VNone) then []
              else [VStr "--version-code"; overwrite_version_name])).
Proof.
  rewrite Aapt_call_run, first_new_list_Program_call. unfold Aapt_args.
  rewrite (group_flag_value "--version-code" overwrite_version_name).
  destruct (truthy overwrite_version_code); by case_decide.
Qed.

(** X11: [Aidl]: each option that is true in Python gives one token, the flag
    and the value in one piece; an empty string counts as left out; an
    input file that is [None] is left out without an error. *)
Theorem Aidl_call_args host self aidl_file preprocessed search_path output_folder s :
  first_new_list s
    (Aidl_call host self aidl_file preprocessed search_path output_folder s).2
  = Some ((if truthy preprocessed then [VStr ("-p" +:+ str_of preprocessed)] else [])
          ++ (if truthy search_path then [VStr ("-I" +:+ str_of search_path)] else [])
          ++ (if truthy output_folder
              then [VStr ("-o" +:+ str_of output_folder)] else [])
          ++ (if decide (aidl_file = VNone) then [] else [aidl_file])).
Proof.
  rewrite Aidl_call_run, first_new_list_Program_call. unfold Aidl_args.
  by rewrite !group_flag, group_value.
Qed.

(** X12: [NdkBuild] and [NdkClean]: with a project path the child gets
    [-C path]; with [None] the pair is dropped and the tool is launched
    all the same, with no path. *)
Theorem Ndk_call_project_path host self s E :
  heap s !! os_environ = Some (ODict E) ->
  launched (NdkBuild_call host self VNone s).2
  = launched s ++ [mkLaunch [executable self] (is_win32 host) E]
  /\ launched (NdkClean_call host self VNone s).2
     = launched s ++ [mkLaunch [executable self; "clean"] (is_win32 host) E]
  /\ (forall path,
        launched (NdkBuild_call host self (VStr path) s).2
        = launched s ++ [mkLaunch [executable self; "-C"; path] (is_win32 host) E]
        /\ launched (NdkClean_call host self (VStr path) s).2
           = launched s
             ++ [mkLaunch [executable self; "clean"; "-C"; path] (is_win32 host) E]).
Proof.
  intros HE.
  assert (Hrun : forall frags,
    launched (Program_call host self (length (heap s)) None (VBool false)
                (with_args s (map VStr frags))).2
    = launched s ++ [mkLaunch (executable self :: frags) (is_win32 host) E]).
  { intros frags.
    destruct (Program_call_with_args host self None (VBool false) s frags E HE)
      as [-> _].
    cbn [or_empty]. by rewrite (left_id_L ∅ (∪)). }
  rewrite NdkBuild_call_run, NdkClean_call_run.
  split; [exact (Hrun [])|]. split; [exact (Hrun ["clean"])|].
  intros path. rewrite NdkBuild_call_run, NdkClean_call_run.
  split; [exact (Hrun ["-C"; path]) | exact (Hrun ["clean"; "-C"; path])].
Qed.

(** X13: [JarSigner] passes its four parameters on unchecked, around the fixed
    digest and signature algorithms: strings are launched as they are,
    and a parameter that is not a string ([None], say) is not skipped but
    makes the call raise [TypeError] before anything is launched. *)
Theorem JarSigner_call_fixed_layout host self jarfile keystore alias password s :
  first_new_list s
    (JarSigner_call host self jarfile keystore alias password s).2
  = Some [VStr "-keystore"; keystore; VStr "-storepass"; password;
          VStr "-digestalg"; VStr "SHA1"; VStr "-sigalg"; VStr "MD5withRSA";
          jarfile; alias]
  /\ (forall j k a p E,
        jarfile = VStr j -> keystore = VStr k -> alias = VStr a ->
        password = VStr p ->
        heap s !! os_environ = Some (ODict E) ->
        launched (JarSigner_call host self jarfile keystore alias password s).2
        = launched s
          ++ [mkLaunch [executable self; "-keystore"; k; "-storepass"; p;
                        "-digestalg"; "SHA1"; "-sigalg"; "MD5withRSA"; j; a]
                (is_win32 host) E])
  /\ (forall v,
        v ∈ [jarfile; keystore; alias; password] ->
        (forall t, v <> VStr t) ->
        (JarSigner_call host self jarfile keystore alias password s).1
        = Raise TypeError
        /\ launched (JarSigner_call host self jarfile keystore alias password s).2
           = launched s).
Proof.
  rewrite JarSigner_call_run. split; [apply first_new_list_Program_call|]. split.
  - intros j k a p E -> -> -> -> HE.
    destruct (Program_call_with_args host self None (VBool false) s
                ["-keystore"; k; "-storepass"; p; "-digestalg"; "SHA1";
                 "-sigalg"; "MD5withRSA"; j; a] E HE) as [Hl _].
    cbn [or_empty] in Hl. by rewrite (left_id_L ∅ (∪)) in Hl.
  - intros v Hin Hv. apply (Program_call_with_args_TypeError _ _ _ _ _ _ v); [|done].
    unfold JarSigner_args. elem_of_cases.
Qed.

(** X14: [JavaC] with a classpath entry that is not a string raises
    [TypeError] at the join, whatever the other parameters, and launches
    nothing. *)
Theorem JavaC_call_rejects_non_string_classpath host self files destdir encoding
    target classpath bootclasspath debug s v :
  v ∈ classpath ->
  (forall t, v <> VStr t) ->
  (JavaC_call host self files destdir encoding target classpath bootclasspath
     debug s).1 = Raise TypeError
  /\ launched (JavaC_call host self files destdir encoding target classpath
                 bootclasspath debug s).2 = launched s.
Proof.
  intros Hin Hv.
  by rewrite JavaC_call_TypeError by (by apply (as_strs_None _ v)).
Qed.

(** X15: [JavaC] with a target gives it twice in a row, after [-target] and
    after [-source]; and the debug flag is always there, as [-g] or as
    [-g:none], just before the files. *)
Theorem JavaC_call_target_and_debug host self files destdir encoding target cp
    bootclasspath debug s :
  exists args,
    first_new_list s
      (JavaC_call host self files destdir encoding target (map VStr cp)
         bootclasspath debug s).2 = Some args
    /\ (target <> VNone ->
        exists pre post,
          args = pre ++ [VStr "-target"; target; VStr "-source"; target] ++ post)
    /\ (exists pre,
          args = pre ++ VStr (if truthy debug then "-g" else "-g:none") :: files).
Proof.
  eexists. split; [by rewrite JavaC_call_run, first_new_list_Program_call|].
  unfold JavaC_args, JavaC_head, JavaC_tail. split.
  - intros Ht. rewrite !(group_flag_value _ target).
    destruct (decide (target = VNone)) as [|_]; [done|].
    match goal with
    | |- context [(?enc ++ _ ++ _ ++ ?d) ++ ?c ++ ?t] =>
        exists enc, (d ++ c ++ t)
    end.
    by rewrite <- !app_assoc.
  - match goal with
    | |- context [?h ++ ?c ++ ?b ++ [_] ++ files] => exists (h ++ c ++ b)
    end.
    by rewrite <- !app_assoc.
Qed.

(** X16: [ZipAlign] formats the alignment whatever it is (an integer as its
    decimal, [None] as the word None) and never leaves it out; [-f] comes
    first when forcing. *)
Theorem ZipAlign_call_launch host self infile outfile align force s E :
  heap s !! os_environ = Some (ODict E) ->
  launched (ZipAlign_call host self (VStr infile) (VStr outfile) align force s).2
  = launched s
    ++ [mkLaunch
          (executable self
           :: (if truthy force then ["-f"] else [])
           ++ [str_of align; infile; outfile])
          (is_win32 host) E].
Proof.
  intros HE. rewrite ZipAlign_call_run. unfold ZipAlign_args. rewrite group_flag.
  destruct (Program_call_with_args host self None (VBool false) s
              ((if truthy force then ["-f"] else []) ++ [str_of align; infile; outfile])
              E HE) as [Hl _].
  cbn [or_empty] in Hl. rewrite (left_id_L ∅ (∪)) in Hl.
  by destruct (truthy force).
Qed.

(** X17: [Dx] with an output file and string inputs: [--dex], then the output
    as one token [--output=file], then the inputs; on exit code 0 the call
    returns these joined by spaces after the executable. *)
Theorem Dx_call_with_output host self files output s E :
  heap s !! os_environ = Some (ODict E) ->
  launched (Dx_call host self (map VStr files) (VStr output) s).2
  = launched s
    ++ [mkLaunch (executable self :: "--dex" :: ("--output=" +:+ output) :: files)
          (is_win32 host) E]
  /\ (forall out err,
        child host (launched s)
          (mkLaunch (executable self :: "--dex" :: ("--output=" +:+ output) :: files)
             (is_win32 host) E) = Exited 0 out err ->
        (Dx_call host self (map VStr files) (VStr output) s).1
        = Return (String.concat " "
                    (executable self :: "--dex" :: ("--output=" +:+ output) :: files))).
Proof.
  intros HE. rewrite Dx_call_run.
  destruct (Program_call_with_args host self None (VBool false) s
              ("--dex" :: ("--output=" +:+ output) :: files) E HE) as [Hl Hr].
  cbn [or_empty] in Hl, Hr. rewrite (left_id_L ∅ (∪)) in Hl, Hr.
  split; [exact Hl|]. intros out err Hc.
  change (Dx_args (map VStr files) (VStr output))
    with (map VStr ("--dex" :: ("--output=" +:+ output) :: files)).
  rewrite Hr. unfold launch_argv. cbn [truthy andb app]. by rewrite Hc.
Qed.

(** ** Instances of the further results *)

Lemma Program_call_rejects_non_string_witness :
  (Program_call (posix_host 0) (Program_init "aapt" FwNone) 1%nat None
     (VBool false) (sample_store_with [VStr "package"; VStr "-M"; VInt 5])).1
  = Raise TypeError
  /\ launched (Program_call (posix_host 0) (Program_init "aapt" FwNone) 1%nat None
                 (VBool false)
                 (sample_store_with [VStr "package"; VStr "-M"; VInt 5])).2 = []
  /\ length (heap (Program_call (posix_host 0) (Program_init "aapt" FwNone) 1%nat
                     None (VBool false)
                     (sample_store_with [VStr "package"; VStr "-M"; VInt 5])).2)
     = 3%nat.
Proof.
  apply (Program_call_rejects_non_string (posix_host 0) (Program_init "aapt" FwNone)
           1%nat None (VBool false)
           (sample_store_with [VStr "package"; VStr "-M"; VInt 5])
           [VStr "package"; VStr "-M"; VInt 5] (VInt 5) eq_refl).
  - do 2 apply list_elem_of_further. apply list_elem_of_here.
  - discriminate.
Defined.

Lemma Program_call_launch_failure_witness :
  (Program_call missing_program_host (Program_init "aapt" FwNone) 1%nat None
     (VBool false) (sample_store_with [VStr "package"])).1
  = Raise OSError
  /\ launched (Program_call missing_program_host (Program_init "aapt" FwNone) 1%nat
                 None (VBool false) (sample_store_with [VStr "package"])).2
     = [mkLaunch ["aapt"; "package"] false (∅ ∪ sample_environ)].
Proof.
  apply (Program_call_launch_failure missing_program_host
           (Program_init "aapt" FwNone) 1%nat None (VBool false)
           (sample_store_with [VStr "package"]) ["package"] sample_environ
           eq_refl eq_refl eq_refl).
Defined.

Lemma Program_call_returns_only_on_exit_0_witness :
  exists req out err,
    launched (Program_call (posix_host 0) (Program_init "aapt" FwNone) 1%nat None
                (VBool false) (sample_store_with [VStr "package"])).2 = [req]
    /\ child (posix_host 0) [] req = Exited 0 out err
    /\ "aapt package" = String.concat " " (argv req).
Proof.
  apply (Program_call_returns_only_on_exit_0 (posix_host 0)
           (Program_init "aapt" FwNone) 1%nat None (VBool false)
           (sample_store_with [VStr "package"]) "aapt package").
  vm_compute. reflexivity.
Defined.

Lemma Program_call_failure_message_witness :
  exists req out err,
    launched (Program_call (posix_host 7) (Program_init "aapt" FwNone) 1%nat None
                (VBool false) (sample_store_with [VStr "package"])).2 = [req]
    /\ child (posix_host 7) [] req = Exited 7 out err
    /\ ProgramFailedError_unicode
         (mkProgramFailedError "aapt package" 7 (Some "boom") (Some "ok"))
       = Some (String.concat " " (argv req) +:+ " failed with code " +:+ pretty 7).
Proof.
  apply (Program_call_failure_message (posix_host 7) (Program_init "aapt" FwNone)
           1%nat None (VBool false) (sample_store_with [VStr "package"])
           (mkProgramFailedError "aapt package" 7 (Some "boom") (Some "ok"))).
  - vm_compute. reflexivity.
  - reflexivity.
Defined.

Lemma for_each_extend_args_run_witness :
  for_each [VStr "a.jar"; VNone; VStr "b.jar"]
    (fun item => extend_args 1%nat [VStr "-I"; item] True_)
    (sample_store_with [VStr "package"])
  = (Return tt,
     sample_store_with
       [VStr "package"; VStr "-I"; VStr "a.jar"; VStr "-I"; VStr "b.jar"]).
Proof.
  apply (for_each_extend_args_run 1%nat [VStr "package"]
           [VStr "a.jar"; VNone; VStr "b.jar"] (fun item => [VStr "-I"; item])
           True_ (sample_store_with [VStr "package"]) eq_refl).
Defined.

Lemma ApkBuilder_call_with_framework_witness :
  exists req,
    launched (ApkBuilder_call (posix_host 0)
                (Program_init "apkbuilder" (FwObj {[ "sdk_dir" := "/opt/sdk" ]}))
                (VStr "out.apk") (VStr "classes.dex") (map VStr ["res.zip"])
                (map VStr []) (map VStr []) (map VStr ["libs"]) sample_store).2
    = [req]
    /\ argv req = ["/bin/sh"; "apkbuilder"; "out.apk"; "-u"; "-f"; "classes.dex";
                   "-z"; "res.zip"; "-nf"; "libs"]
    /\ use_shell req = false
    /\ child_env req !! "ANDROID_SDK_DIR" = Some "/opt/sdk"
    /\ child_env req !! "HOME" = Some "/root".
Proof.
  assert (Hattr : ({[ "sdk_dir" := "/opt/sdk" ]} : gmap string string) !! "sdk_dir"
                  = Some "/opt/sdk") by (vm_compute; reflexivity).
  destruct (ApkBuilder_call_with_framework (posix_host 0) "apkbuilder"
              {[ "sdk_dir" := "/opt/sdk" ]} "/opt/sdk" "out.apk" "classes.dex"
              ["res.zip"] [] [] ["libs"] sample_store sample_environ
              Hattr eq_refl) as (req & Hl & Hargv & Hsh & Hsdk & Hrest).
  exists req. split; [exact Hl|]. split; [exact Hargv|]. split; [exact Hsh|].
  split; [exact Hsdk|]. rewrite (Hrest "HOME") by discriminate. reflexivity.
Defined.

Lemma LlvmRs_call_skips_None_witness :
  first_new_list sample_store
    (LlvmRs_call (posix_host 0) (Program_init "llvm-rs-cc" FwNone) (VStr "res")
       (VStr "gen") [VStr "a.rs"; VNone; VStr "b.rs"] [VNone; VStr "inc"]
       sample_store).2
  = Some [VStr "-I"; VStr "inc"; VStr "-o"; VStr "res";
          VStr "-java-reflection-path-base"; VStr "gen"; VStr "a.rs"; VStr "b.rs"].
Proof.
  apply (LlvmRs_call_skips_None (posix_host 0) (Program_init "llvm-rs-cc" FwNone)
           (VStr "res") (VStr "gen") [VStr "a.rs"; VNone; VStr "b.rs"]
           [VNone; VStr "inc"] sample_store); discriminate.
Defined.

Lemma Ndk_call_project_path_witness :
  launched (NdkBuild_call (posix_host 0) (Program_init "ndk-build" FwNone) VNone
              sample_store).2
  = [mkLaunch ["ndk-build"] false sample_environ]
  /\ launched (NdkClean_call (posix_host 0) (Program_init "ndk-build" FwNone)
                 (VStr "jni") sample_store).2
     = [mkLaunch ["ndk-build"; "clean"; "-C"; "jni"] false sample_environ].
Proof.
  destruct (Ndk_call_project_path (posix_host 0) (Program_init "ndk-build" FwNone)
              sample_store sample_environ eq_refl) as (Hbuild & _ & Hpath).
  split; [exact Hbuild | exact (proj2 (Hpath "jni"))].
Defined.

Lemma JarSigner_call_fixed_layout_witness :
  (JarSigner_call (posix_host 0) (Program_init "jarsigner" FwNone) (VStr "app.apk")
     (VStr "debug.keystore") (VStr "key") VNone sample_store).1
  = Raise TypeError
  /\ launched (JarSigner_call (posix_host 0) (Program_init "jarsigner" FwNone)
                 (VStr "app.apk") (VStr "debug.keystore") (VStr "key") VNone
                 sample_store).2 = [].
Proof.
  apply (proj2 (proj2 (JarSigner_call_fixed_layout (posix_host 0)
                         (Program_init "jarsigner" FwNone) (VStr "app.apk")
                         (VStr "debug.keystore") (VStr "key") VNone sample_store))
           VNone).
  - do 3 apply list_elem_of_further. apply list_elem_of_here.
  - discriminate.
Defined.

Lemma JavaC_call_rejects_non_string_classpath_witness :
  (JavaC_call (posix_host 0) (Program_init "javac" FwNone) [VStr "A.java"] VNone
     VNone VNone [VStr "a.jar"; VNone] VNone VNone sample_store).1
  = Raise TypeError
  /\ launched (JavaC_call (posix_host 0) (Program_init "javac" FwNone)
                 [VStr "A.java"] VNone VNone VNone [VStr "a.jar"; VNone] VNone
                 VNone sample_store).2 = [].
Proof.
  apply (JavaC_call_rejects_non_string_classpath (posix_host 0)
           (Program_init "javac" FwNone) [VStr "A.java"] VNone VNone VNone
           [VStr "a.jar"; VNone] VNone VNone sample_store VNone).
  - apply list_elem_of_further, list_elem_of_here.
  - discriminate.
Defined.

Lemma JavaC_call_target_and_debug_witness :
  exists args,
    first_new_list sample_store
      (JavaC_call (posix_host 0) (Program_init "javac" FwNone) [VStr "A.java"]
         VNone VNone (VStr "1.5") (map VStr []) VNone (VBool true) sample_store).2
    = Some args
    /\ exists pre post,
         args = pre ++ [VStr "-target"; VStr "1.5"; VStr "-source"; VStr "1.5"]
                ++ post.
Proof.
  destruct (JavaC_call_target_and_debug (posix_host 0) (Program_init "javac" FwNone)
              [VStr "A.java"] VNone VNone (VStr "1.5") [] VNone (VBool true)
              sample_store) as (args & Hargs & Htarget & _).
  exists args. split; [exact Hargs|]. apply Htarget. discriminate.
Defined.

Lemma ZipAlign_call_launch_witness :
  launched (ZipAlign_call (posix_host 0) (Program_init "zipalign" FwNone)
              (VStr "in.apk") (VStr "out.apk") (VInt 4) (VBool true) sample_store).2
  = [mkLaunch ["zipalign"; "-f"; "4"; "in.apk"; "out.apk"] false sample_environ].
Proof.
  apply (ZipAlign_call_launch (posix_host 0) (Program_init "zipalign" FwNone)
           "in.apk" "out.apk" (VInt 4) (VBool true) sample_store sample_environ
           eq_refl).
Defined.

Lemma Dx_call_with_output_witness :
  (Dx_call (posix_host 0) (Program_init "dx" FwNone) (map VStr ["classes"])
     (VStr "classes.dex") sample_store).1
  = Return "dx --dex --output=classes.dex classes".
Proof.
  apply (proj2 (Dx_call_with_output (posix_host 0) (Program_init "dx" FwNone)
                  ["classes"] "classes.dex" sample_store sample_environ eq_refl)
           "ok" "boom" eq_refl).
Defined.
